(** * The stock-price page of mymapapp2 (pages/01_chatgpt주가.py)

    A shallow embedding of the one script of the repository: a Streamlit
    page that lets the user pick companies out of a fixed catalog, asks
    yfinance for three years of prices of each, and overlays the closing
    prices in one Plotly figure.

    The script talks to three collaborators, which are modelled by what
    the script can observe of them:
    - the clock ([datetime.today()]) is a value of the world the pass runs in;
    - [yf.download] is an oracle of the world: it answers a request with a
      table or raises; every request is recorded in the event log;
    - Streamlit's output calls ([st.title], [st.info], [st.warning],
      [st.plotly_chart]) and the widget append to the same event log.

    The script's own state is the module global [top10_companies] and the
    event log; statements are sequenced in a state-and-exception monad in
    which the state survives a raise, as the page does. *)

From Stdlib Require Import String Ascii List ZArith Lia Bool.
From Stdlib Require Import PrimFloat.
Import ListNotations.

Local Open Scope string_scope.
Local Open Scope Z_scope.

(** ** Exceptions and results *)

(** The exceptions the script can meet.  [KeyError] is what subscripting a
    dict raises, [OverflowError] what [datetime] arithmetic raises,
    [StreamlitAPIException] what a widget raises on bad arguments, and
    [ProviderError] stands for anything [yf.download] lets escape (network
    faults, rate limits), tagged by its message. *)
Inductive exception : Type :=
| KeyError (key : string)
| OverflowError (msg : string)
| StreamlitAPIException (msg : string)
| ProviderError (msg : string).

Inductive outcome (A : Type) : Type :=
| Ok (a : A)
| Raise (e : exception).
Arguments Ok {A} a.
Arguments Raise {A} e.

Definition outcome_bind {A B} (r : outcome A) (k : A -> outcome B) : outcome B :=
  match r with
  | Ok a => k a
  | Raise e => Raise e
  end.

(** ** [datetime] and [timedelta]

    Python does [datetime] arithmetic on the proleptic Gregorian ordinal of
    the date ([toordinal], day 1 is 0001-01-01) and the time of day, and
    converts back with [date.fromordinal].  The two conversions are inverse
    bijections, so the date is kept as its ordinal. *)
Module Datetime.

Record timedelta : Type := mk_timedelta
  { days : Z; seconds : Z; microseconds : Z }.

Record datetime : Type := mk_datetime
  { toordinal : Z; hour : Z; minute : Z; second : Z; microsecond : Z }.

(** [date.max.toordinal()], the ordinal of 9999-12-31. *)
Definition MAXORDINAL : Z := 3652059.

(** The values [datetime] can hold. *)
Definition valid (d : datetime) : Prop :=
  1 <= toordinal d <= MAXORDINAL /\
  0 <= hour d < 24 /\ 0 <= minute d < 60 /\ 0 <= second d < 60 /\
  0 <= microsecond d < 1000000.

(** [timedelta(days, seconds, microseconds, minutes=, hours=)]: carries
    microseconds into seconds and seconds into days with floor division, and
    refuses a magnitude of more than 999999999 days. *)
Definition new_timedelta (d h m s us : Z) : outcome timedelta :=
  let s1 := h * 3600 + m * 60 + s + us / 1000000 in
  let d1 := d + s1 / 86400 in
  if Z.abs d1 >? 999999999
  then Raise (OverflowError "timedelta # of days is too large")
  else Ok {| days := d1; seconds := s1 mod 86400;
             microseconds := us mod 1000000 |}.

(** [timedelta.__neg__] and [timedelta.__add__]. *)
Definition neg (t : timedelta) : outcome timedelta :=
  new_timedelta (- days t) 0 0 (- seconds t) (- microseconds t).

Definition add_timedelta (a b : timedelta) : outcome timedelta :=
  new_timedelta (days a + days b) 0 0 (seconds a + seconds b)
                (microseconds a + microseconds b).

(** [datetime.__add__(self, other: timedelta)]. *)
Definition add (self : datetime) (other : timedelta) : outcome datetime :=
  outcome_bind
    (new_timedelta (toordinal self) (hour self) (minute self) (second self)
                   (microsecond self))
    (fun delta0 =>
  outcome_bind (add_timedelta delta0 other) (fun delta =>
    let hour' := seconds delta / 3600 in
    let rem := seconds delta mod 3600 in
    let minute' := rem / 60 in
    let second' := rem mod 60 in
    if (0 <? days delta) && (days delta <=? MAXORDINAL)
    then Ok {| toordinal := days delta; hour := hour'; minute := minute';
               second := second'; microsecond := microseconds delta |}
    else Raise (OverflowError "result out of range"))).

(** [datetime.__sub__(self, other: timedelta)] is [self + -other]. *)
Definition sub_timedelta (self : datetime) (other : timedelta)
  : outcome datetime :=
  outcome_bind (neg other) (add self).

(** [datetime.__sub__(self, other: datetime)] for two naive datetimes. *)
Definition sub (self other : datetime) : outcome timedelta :=
  let secs1 := second self + minute self * 60 + hour self * 3600 in
  let secs2 := second other + minute other * 60 + hour other * 3600 in
  new_timedelta (toordinal self - toordinal other) 0 0 (secs1 - secs2)
                (microsecond self - microsecond other).

End Datetime.
Import Datetime.

(** ** The date range (lines 28-29)

    [end_date = datetime.today()] and
    [start_date = end_date - timedelta(days=3*365)]. *)
Definition end_date (today : datetime) : datetime := today.

Definition start_date (today : datetime) : outcome datetime :=
  outcome_bind (new_timedelta (3 * 365) 0 0 0 0)
               (sub_timedelta (end_date today)).

(** ** Tables: what the script reads of a pandas [DataFrame]

    A table is its rows in index order, each a date and its closing price
    (a Python float, an IEEE 754 binary64).  The script reads nothing else
    of a table. *)
Module pd.

Definition DataFrame : Type := list (datetime * float).

(** [df.empty]: no rows. *)
Definition empty (df : DataFrame) : bool :=
  match df with
  | [] => true
  | _ :: _ => false
  end.

(** [df.index] and [df['Close']]. *)
Definition index (df : DataFrame) : list datetime := map fst df.
Definition Close (df : DataFrame) : list float := map snd df.

End pd.

(** ** Figures: the part of [plotly.graph_objs] the script builds *)
Module go.

Record Scatter : Type := mk_Scatter
  { x : list datetime; y : list float; mode : string; name : string }.

(** The layout properties the script sets; unset ones are [None]. *)
Record Layout : Type := mk_Layout
  { title : option string; xaxis_title : option string;
    yaxis_title : option string; hovermode : option string;
    template : option string }.

Record Figure : Type := mk_Figure
  { data : list Scatter; layout : Layout }.

(** [go.Figure()]. *)
Definition new_Figure : Figure :=
  {| data := [];
     layout := {| title := None; xaxis_title := None; yaxis_title := None;
                  hovermode := None; template := None |} |}.

(** [fig.add_trace(trace)] appends to the figure's data. *)
Definition add_trace (fig : Figure) (trace : Scatter) : Figure :=
  {| data := data fig ++ [trace]; layout := layout fig |}.

(** [fig.update_layout(title=, xaxis_title=, yaxis_title=, hovermode=,
    template=)] overwrites the five properties and keeps the data. *)
Definition update_layout (fig : Figure)
    (title' xaxis_title' yaxis_title' hovermode' template' : string)
  : Figure :=
  {| data := data fig;
     layout := {| title := Some title'; xaxis_title := Some xaxis_title';
                  yaxis_title := Some yaxis_title';
                  hovermode := Some hovermode';
                  template := Some template' |} |}.

End go.

(** ** The world, the state and the monad of a pass *)

(** What a pass of the script observes of its surroundings. *)
Inductive event : Type :=
| Title (body : string)
| Multiselect (label : string) (options default : list string)
| Download (ticker : string) (start end_ : datetime)
| Warning (body : string)
| Info (body : string)
| PlotlyChart (fig : go.Figure) (use_container_width : bool).

(** The surroundings of one pass: the wall clock, the market-data provider
    and the widget's value in the session ([None] until the user touches the
    widget). *)
Record World : Type := mk_World
  { clock : datetime;
    provider : string -> datetime -> datetime -> outcome pd.DataFrame;
    widget : option (list string) }.

(** The script's state: its one module global and the log of what it did. *)
Record state : Type := mk_state
  { g_top10_companies : list (string * string);
    log : list event }.

Definition M (A : Type) : Type := state -> outcome A * state.

Definition ret {A} (a : A) : M A := fun s => (Ok a, s).

Definition bind {A B} (m : M A) (k : A -> M B) : M B :=
  fun s =>
    match m s with
    | (Ok a, s') => k a s'
    | (Raise e, s') => (Raise e, s')
    end.

Definition lift {A} (r : outcome A) : M A := fun s => (r, s).

Definition emit (e : event) : M unit :=
  fun s => (Ok tt, {| g_top10_companies := g_top10_companies s;
                      log := log s ++ [e] |}).

Declare Scope script_scope.
Delimit Scope script_scope with script.
Notation "v <- m ;; k" := (bind m (fun v => k))
  (at level 100, m at next level, right associativity) : script_scope.
Notation "m ;; k" := (bind m (fun _ => k))
  (at level 100, right associativity) : script_scope.
Local Open Scope script_scope.

(** [for v in l: body], the loop variables threaded through the body. *)
Fixpoint for_each {A V} (l : list A) (body : A -> V -> M V) (vars : V) : M V :=
  match l with
  | [] => ret vars
  | a :: rest => vars' <- body a vars ;; for_each rest body vars'
  end.

(** ** Dicts in insertion order *)

Fixpoint get (d : list (string * string)) (key : string) : option string :=
  match d with
  | [] => None
  | (k, v) :: rest => if String.eqb k key then Some v else get rest key
  end.

(** [d[key]]. *)
Definition getitem (d : list (string * string)) (key : string)
  : outcome string :=
  match get d key with
  | Some v => Ok v
  | None => Raise (KeyError key)
  end.

(** [list(d.keys())]. *)
Definition keys (d : list (string * string)) : list string := map fst d.

(** Python's truth value of a list. *)
Definition truthy {A} (l : list A) : bool :=
  match l with
  | [] => false
  | _ :: _ => true
  end.

(** ** The script *)

(** Lines 8-19. *)
Definition top10_companies : list (string * string) :=
  [ ("Apple (AAPL)", "AAPL");
    ("Microsoft (MSFT)", "MSFT");
    ("Alphabet (GOOGL)", "GOOGL");
    ("Amazon (AMZN)", "AMZN");
    ("NVIDIA (NVDA)", "NVDA");
    ("Meta (META)", "META");
    ("Berkshire Hathaway (BRK-B)", "BRK-B");
    ("Eli Lilly (LLY)", "LLY");
    ("Visa (V)", "V");
    ("TSMC (TSM)", "TSM") ].

(** The arguments of the [st.multiselect] call of line 24. *)
Definition multiselect_label : string := "기업을 선택하세요 (복수 선택 가능)".
Definition multiselect_default : list string :=
  ["Apple (AAPL)"; "Microsoft (MSFT)"].

(** The texts of lines 22, 45 and 58 and the layout of lines 48-54. *)
Definition page_title : string :=
  "📊 시가총액 Top 10 기업 - 최근 3년 주가 (Plotly 그래프)".
Definition warning_text (name : string) : string :=
  name ++ "의 데이터를 불러올 수 없습니다.".
Definition info_text : string := "기업을 하나 이상 선택해주세요.".

Section Script.

Variable w : World.

(** Reading and assigning the module global. *)
Definition load_top10_companies : M (list (string * string)) :=
  fun s => (Ok (g_top10_companies s), s).

Definition store_top10_companies (d : list (string * string)) : M unit :=
  fun s => (Ok tt, {| g_top10_companies := d; log := log s |}).

(** [datetime.today()]. *)
Definition datetime_today : M datetime := ret (clock w).

(** [yf.download(ticker, start=, end=)]: one request to the provider. *)
Definition yf_download (ticker : string) (start end_ : datetime)
  : M pd.DataFrame :=
  emit (Download ticker start end_) ;;
  lift (provider w ticker start end_).

(** Streamlit's calls.  [st.multiselect] refuses a default that is not
    among the options, and returns the session's value of the widget, the
    default on the first pass. *)
Definition st_title (body : string) : M unit := emit (Title body).
Definition st_warning (body : string) : M unit := emit (Warning body).
Definition st_info (body : string) : M unit := emit (Info body).
Definition st_plotly_chart (fig : go.Figure) (use_container_width : bool)
  : M unit := emit (PlotlyChart fig use_container_width).

Definition st_multiselect (label : string) (options default : list string)
  : M (list string) :=
  if forallb (fun v => existsb (String.eqb v) options) default
  then emit (Multiselect label options default) ;;
       ret (match widget w with
            | Some chosen => chosen
            | None => default
            end)
  else lift (Raise (StreamlitAPIException
                      "The default value is not part of the options")).

(** Lines 35-45, the body of [for name in selected]. *)
Definition loop_body (start_date end_date : datetime)
    (name : string) (fig : go.Figure) : M go.Figure :=
  d <- load_top10_companies ;;
  ticker <- lift (getitem d name) ;;
  df <- yf_download ticker start_date end_date ;;
  if negb (pd.empty df)
  then ret (go.add_trace fig {| go.x := pd.index df; go.y := pd.Close df;
                                go.mode := "lines"; go.name := name |})
  else st_warning (warning_text name) ;; ret fig.

(** Lines 26-58. *)
Definition pipeline (selected : list string) : M unit :=
  if truthy selected
  then
    today <- datetime_today ;;
    let end_date := end_date today in
    start_date <- lift (start_date today) ;;
    fig <- for_each selected (loop_body start_date end_date) go.new_Figure ;;
    let fig := go.update_layout fig
                 "최근 3년간 주가 비교 (종가 기준)" "날짜" "주가 ($)"
                 "x unified" "plotly_white" in
    st_plotly_chart fig true
  else st_info info_text.

(** The whole script, lines 8-58. *)
Definition page : M unit :=
  store_top10_companies top10_companies ;;
  st_title page_title ;;
  d <- load_top10_companies ;;
  selected <- st_multiselect multiselect_label (keys d) multiselect_default ;;
  pipeline selected.

End Script.

(** ** Vocabulary of the statements *)

(** The value line 24 binds to [selected]. *)
Definition selected (w : World) : list string :=
  match widget w with
  | Some chosen => chosen
  | None => multiselect_default
  end.

(** What fetching the series of a label comes to in a world, in the order
    the script evaluates it: the date range, the ticker of the label, the
    provider's answer. *)
Definition fetched (w : World) (name : string) : outcome pd.DataFrame :=
  outcome_bind (start_date (clock w)) (fun start =>
  outcome_bind (getitem top10_companies name) (fun ticker =>
  provider w ticker start (end_date (clock w)))).

(** The fetch of a label returned a series with rows, or one without. *)
Definition has_series (w : World) (name : string) : bool :=
  match fetched w name with
  | Ok df => negb (pd.empty df)
  | Raise _ => false
  end.

Definition no_series (w : World) (name : string) : bool :=
  match fetched w name with
  | Ok df => pd.empty df
  | Raise _ => false
  end.

Definition series (w : World) (name : string) : pd.DataFrame :=
  match fetched w name with
  | Ok df => df
  | Raise _ => []
  end.

(** The ticker of a catalog label. *)
Definition ticker_of (name : string) : string :=
  match get top10_companies name with
  | Some ticker => ticker
  | None => ""
  end.

(** The trace line 38 builds for a label. *)
Definition trace_of (w : World) (name : string) : go.Scatter :=
  {| go.x := pd.index (series w name); go.y := pd.Close (series w name);
     go.mode := "lines"; go.name := name |}.

(** The layout lines 48-54 leave in the figure. *)
Definition page_layout : go.Layout :=
  {| go.title := Some "최근 3년간 주가 비교 (종가 기준)";
     go.xaxis_title := Some "날짜";
     go.yaxis_title := Some "주가 ($)";
     go.hovermode := Some "x unified";
     go.template := Some "plotly_white" |}.

(** Reading a log: the warnings, prompts, charts and requests in it. *)
Fixpoint warnings (evs : list event) : list string :=
  match evs with
  | [] => []
  | Warning body :: rest => body :: warnings rest
  | _ :: rest => warnings rest
  end.

Fixpoint infos (evs : list event) : list string :=
  match evs with
  | [] => []
  | Info body :: rest => body :: infos rest
  | _ :: rest => infos rest
  end.

Fixpoint charts (evs : list event) : list go.Figure :=
  match evs with
  | [] => []
  | PlotlyChart fig _ :: rest => fig :: charts rest
  | _ :: rest => charts rest
  end.

Fixpoint requests (evs : list event) : list (string * datetime * datetime) :=
  match evs with
  | [] => []
  | Download ticker start end_ :: rest => (ticker, start, end_) :: requests rest
  | _ :: rest => requests rest
  end.

(** The number of traces of a figure that carry a name. *)
Definition traces_named (name : string) (fig : go.Figure) : nat :=
  count_occ string_dec (map go.name (go.data fig)) name.

(** The structure of a figure: the name and the number of points of each
    trace, in order. *)
Definition structure (fig : go.Figure) : list (string * nat) :=
  map (fun t => (go.name t, List.length (go.x t))) (go.data fig).

(** A state with more in its log. *)
Definition extend (s : state) (evs : list event) : state :=
  {| g_top10_companies := g_top10_companies s; log := log s ++ evs |}.

(** One pass over the page from a state: how it ends, and what it added to
    the log. *)
Definition result (w : World) (s : state) : outcome unit := fst (page w s).

Definition output (w : World) (s : state) : list event :=
  skipn (List.length (log s)) (log (snd (page w s))).

(** What one turn of the loop adds to the log when its fetch returns. *)
Definition turn_events (w : World) (start : datetime) (name : string)
  : list event :=
  Download (ticker_of name) start (clock w)
  :: (if no_series w name then [Warning (warning_text name)] else []).

(** The events a loop may add: requests for the date range, and warnings. *)
Definition loop_event (start end_ : datetime) (e : event) : Prop :=
  match e with
  | Download _ a b => a = start /\ b = end_
  | Warning _ => True
  | _ => False
  end.

(** What lines 22-24 add to the log, and the state they leave. *)
Definition preamble : list event :=
  [Title page_title;
   Multiselect multiselect_label (keys top10_companies) multiselect_default].

Definition started (s : state) : state :=
  {| g_top10_companies := top10_companies; log := log s ++ preamble |}.

(** The figure line 56 shows when every fetch returns. *)
Definition figure (w : World) : go.Figure :=
  {| go.data := map (trace_of w) (filter (has_series w) (selected w));
     go.layout := page_layout |}.

(** Lines 48-56 on the figure the loop leaves. *)
Definition finish (r : outcome go.Figure * state) : outcome unit * state :=
  match r with
  | (Ok fig, s) =>
      (Ok tt,
       extend s [PlotlyChart
                   (go.update_layout fig "최근 3년간 주가 비교 (종가 기준)"
                      "날짜" "주가 ($)" "x unified" "plotly_white") true])
  | (Raise e, s) => (Raise e, s)
  end.

(** What two passes have to agree on to be told apart by nothing but their
    requests: how they end, their charts, warnings and prompts. *)
Definition same_page (r1 r2 : outcome unit * state) (s1 s2 : state) : Prop :=
  exists evs1 evs2,
    r1 = (fst r2, extend s1 evs1) /\ snd r2 = extend s2 evs2 /\
    charts evs1 = charts evs2 /\ warnings evs1 = warnings evs2 /\
    infos evs1 = infos evs2.

(** ** Sample worlds

    A clock at 2025-06-15 10:30 and a provider that has no data for TSM,
    fails on NVDA and answers every other ticker with [rows] daily rows from
    the start of the range. *)
Module Sample.

Definition now : datetime :=
  {| toordinal := 739417; hour := 10; minute := 30; second := 0;
     microsecond := 0 |}.

Definition table (rows : nat) (start : datetime) : pd.DataFrame :=
  map (fun k => ({| toordinal := toordinal start + Z.of_nat k; hour := 0;
                    minute := 0; second := 0; microsecond := 0 |},
                 189.5%float))
      (seq 0 rows).

Definition yfinance (rows : nat) (ticker : string) (start end_ : datetime)
  : outcome pd.DataFrame :=
  if String.eqb ticker "TSM" then Ok []
  else if String.eqb ticker "NVDA" then Raise (ProviderError "HTTP 429")
  else Ok (table rows start).

Definition world (rows : nat) (chosen : option (list string)) : World :=
  {| clock := now; provider := yfinance rows; widget := chosen |}.

(** Sessions: the widget untouched, cleared, with a selection that holds
    an empty series, and with one that holds a failing fetch. *)
Definition untouched : World := world 3 None.
Definition cleared : World := world 3 (Some []).
Definition mixed : World :=
  world 3 (Some ["Apple (AAPL)"; "TSMC (TSM)"; "Visa (V)"]).
Definition failing : World :=
  world 3 (Some ["Apple (AAPL)"; "TSMC (TSM)"; "NVIDIA (NVDA)"; "Visa (V)"]).

(** The selection of [mixed] over a provider that times out on a ticker
    that is not selected. *)
Definition elsewhere : World :=
  {| clock := now;
     provider := fun ticker start end_ =>
                   if String.eqb ticker "MSFT"
                   then Raise (ProviderError "timed out")
                   else yfinance 3 ticker start end_;
     widget := Some ["Apple (AAPL)"; "TSMC (TSM)"; "Visa (V)"] |}.

(** The state of a fresh pass, and one left over by something else. *)
Definition fresh : state := {| g_top10_companies := []; log := [] |}.
Definition stale : state :=
  {| g_top10_companies := [("Nokia (NOK)", "NOK")];
     log := [Warning "stale"; Info "stale"] |}.

End Sample.

(** ** The first fetch of a selection that fails *)

(** The exception of the first label, in order, whose fetch raises. *)
Fixpoint first_failure (w : World) (names : list string) : option exception :=
  match names with
  | [] => None
  | name :: rest =>
      match fetched w name with
      | Raise e => Some e
      | Ok _ => first_failure w rest
      end
  end.

(** The requests of a pass for a list of labels. *)
Definition requests_for (w : World) (start : datetime) (names : list string)
  : list (string * datetime * datetime) :=
  map (fun name => (ticker_of name, start, clock w)) names.

(** ** More sample worlds

    Selections with a label the catalog does not have, with nothing but a
    ticker without data and with one label twice, and the last day on which
    the start of the range is no date (0003-12-31). *)
Module Cases.

Definition unlisted : World :=
  Sample.world 3 (Some ["Apple (AAPL)"; "Nokia (NOK)"; "Visa (V)"]).

Definition no_data : World := Sample.world 3 (Some ["TSMC (TSM)"]).

Definition twice : World :=
  Sample.world 3 (Some ["Visa (V)"; "TSMC (TSM)"; "Visa (V)"]).


End Cases.

(** * Properties *)

Local Open Scope list_scope.

(** Unfolds the statements of the script down to their effect on the state. *)
Ltac run_script :=
  cbv beta iota zeta delta
    [loop_body bind ret lift emit extend load_top10_companies
     store_top10_companies datetime_today yf_download st_title st_warning
     st_info st_plotly_chart g_top10_companies log].

(** *** Arithmetic of the date range *)

(** On components that are already in range the constructor carries
    nothing. *)
Lemma new_timedelta_in_range (d h m s us : Z) :
  Z.abs d <= 999999999 ->
  0 <= h * 3600 + m * 60 + s < 86400 ->
  0 <= us < 1000000 ->
  new_timedelta d h m s us =
    Ok {| days := d; seconds := h * 3600 + m * 60 + s; microseconds := us |}.
Proof.
  intros Hd Hs Hus. unfold new_timedelta.
  rewrite (Z.div_small us), Z.add_0_r by lia.
  rewrite (Z.div_small (h * 3600 + m * 60 + s)), Z.add_0_r by lia.
  rewrite !Z.mod_small by lia.
  destruct (Z.gtb_spec (Z.abs d) 999999999) as [Hgt | _]; [lia | reflexivity].
Qed.

(** Splitting a second of the day back into hour, minute and second. *)
Lemma split_seconds (h m s : Z) :
  0 <= h -> 0 <= m < 60 -> 0 <= s < 60 ->
  let t := h * 3600 + m * 60 + s in
  t / 3600 = h /\ (t mod 3600) / 60 = m /\ (t mod 3600) mod 60 = s.
Proof.
  intros Hh Hm Hs t.
  assert (E1 : t / 3600 = h).
  { symmetry. apply (Z.div_unique t 3600 h (m * 60 + s)); subst t; lia. }
  assert (E2 : t mod 3600 = m * 60 + s).
  { symmetry. apply (Z.mod_unique t 3600 h (m * 60 + s)); subst t; lia. }
  rewrite E2. repeat split.
  - exact E1.
  - symmetry. apply (Z.div_unique (m * 60 + s) 60 m s); lia.
  - symmetry. apply (Z.mod_unique (m * 60 + s) 60 m s); lia.
Qed.

(** Subtracting a number of whole days moves the ordinal and keeps the time
    of day, as long as the result is a date. *)
Lemma sub_timedelta_days (d : datetime) (n : Z) :
  valid d -> 0 <= n -> n < toordinal d ->
  sub_timedelta d {| days := n; seconds := 0; microseconds := 0 |} =
    Ok {| toordinal := toordinal d - n; hour := hour d; minute := minute d;
          second := second d; microsecond := microsecond d |}.
Proof.
  intros (Hord & Hh & Hm & Hs & Hus) Hn Hlt.
  unfold MAXORDINAL in Hord.
  unfold sub_timedelta, neg; cbn [days seconds microseconds].
  rewrite new_timedelta_in_range by lia.
  cbn [outcome_bind]. unfold add.
  rewrite new_timedelta_in_range by lia.
  cbn [outcome_bind]. unfold add_timedelta; cbn [days seconds microseconds].
  rewrite new_timedelta_in_range by lia.
  cbn [outcome_bind days seconds microseconds].
  replace (0 * 3600 + 0 * 60 +
           (hour d * 3600 + minute d * 60 + second d + (0 * 3600 + 0 * 60 + - 0)))
    with (hour d * 3600 + minute d * 60 + second d) by lia.
  destruct (split_seconds (hour d) (minute d) (second d)) as (E1 & E2 & E3);
    try lia.
  cbv zeta in E1, E2, E3. rewrite E1, E2, E3.
  replace (0 <? toordinal d + - n) with true by (symmetry; apply Z.ltb_lt; lia).
  replace (toordinal d + - n <=? MAXORDINAL) with true
    by (symmetry; apply Z.leb_le; unfold MAXORDINAL; lia).
  cbn [andb]. do 2 f_equal; lia.
Qed.

(** The date range subtracts without overflow from 0004-01-01 on. *)
Lemma start_date_ok (today : datetime) :
  valid today -> 1095 < toordinal today ->
  start_date today =
    Ok {| toordinal := toordinal today - 1095; hour := hour today;
          minute := minute today; second := second today;
          microsecond := microsecond today |}.
Proof.
  intros Hv Hlo. unfold start_date, end_date.
  change (new_timedelta (3 * 365) 0 0 0 0)
    with (Ok {| days := 1095; seconds := 0; microseconds := 0 |}).
  cbn [outcome_bind]. apply sub_timedelta_days; [exact Hv | lia | lia].
Qed.
(** ** Logs *)

Lemma extend_nil (s : state) : extend s [] = s.
Proof. destruct s; unfold extend; cbn. now rewrite app_nil_r. Qed.

Lemma extend_extend (s : state) (a b : list event) :
  extend (extend s a) b = extend s (a ++ b).
Proof. unfold extend; cbn. now rewrite app_assoc. Qed.

Lemma warnings_app (a b : list event) :
  warnings (a ++ b) = warnings a ++ warnings b.
Proof.
  induction a as [| e a IH]; [reflexivity |].
  destruct e; cbn; rewrite IH; reflexivity.
Qed.

Lemma infos_app (a b : list event) : infos (a ++ b) = infos a ++ infos b.
Proof.
  induction a as [| e a IH]; [reflexivity |].
  destruct e; cbn; rewrite IH; reflexivity.
Qed.

Lemma charts_app (a b : list event) : charts (a ++ b) = charts a ++ charts b.
Proof.
  induction a as [| e a IH]; [reflexivity |].
  destruct e; cbn; rewrite IH; reflexivity.
Qed.

Lemma requests_app (a b : list event) :
  requests (a ++ b) = requests a ++ requests b.
Proof.
  induction a as [| e a IH]; [reflexivity |].
  destruct e; cbn; rewrite IH; reflexivity.
Qed.

(** A loop's events hold no prompt and no chart. *)
Lemma loop_events_quiet (start end_ : datetime) (evs : list event) :
  Forall (loop_event start end_) evs -> infos evs = [] /\ charts evs = [].
Proof.
  induction 1 as [| e evs He _ [IHi IHc]]; [split; reflexivity |].
  destruct e; cbn in *; try contradiction; auto.
Qed.

Lemma loop_events_requests (start end_ : datetime) (evs : list event) :
  Forall (loop_event start end_) evs ->
  forall t a b, In (t, a, b) (requests evs) -> a = start /\ b = end_.
Proof.
  induction 1 as [| e evs He _ IH]; cbn; [contradiction |].
  intros t a b Hin. destruct e; cbn in *; try contradiction; eauto.
  destruct Hin as [Heq | Hin]; [| eauto].
  inversion Heq; subst. exact He.
Qed.

(** ** The loop *)

Lemma for_each_app {A V} (l1 l2 : list A) (body : A -> V -> M V) (vars : V)
    (s : state) :
  for_each (l1 ++ l2) body vars s =
    bind (for_each l1 body vars) (for_each l2 body) s.
Proof.
  revert vars s. induction l1 as [| a l1 IH]; intros vars s; cbn.
  - reflexivity.
  - unfold bind. destruct (body a vars s) as [[vars' | e] s'].
    + rewrite IH. reflexivity.
    + reflexivity.
Qed.

Section Loop.

Variable w : World.
Variable start : datetime.
Hypothesis Hstart : start_date (clock w) = Ok start.

Lemma fetched_in_range (name : string) :
  fetched w name =
    outcome_bind (getitem top10_companies name)
                 (fun ticker => provider w ticker start (clock w)).
Proof. unfold fetched. rewrite Hstart. reflexivity. Qed.

Lemma getitem_ticker_of (name t : string) :
  getitem top10_companies name = Ok t -> ticker_of name = t.
Proof.
  unfold getitem, ticker_of.
  destruct (get top10_companies name); congruence.
Qed.

(** One turn whose fetch returns. *)
Lemma loop_body_returns (name : string) (fig : go.Figure) (s : state)
    (df : pd.DataFrame) :
  g_top10_companies s = top10_companies ->
  fetched w name = Ok df ->
  loop_body w start (clock w) name fig s =
    (Ok (if has_series w name then go.add_trace fig (trace_of w name)
         else fig),
     extend s (turn_events w start name)).
Proof.
  intros Hg Hf. destruct s as [g l]; cbn in Hg; subst g.
  unfold turn_events, trace_of, has_series, no_series, series.
  rewrite Hf. rewrite fetched_in_range in Hf.
  run_script.
  destruct (getitem top10_companies name) as [t | e] eqn:Ht;
    cbn [outcome_bind] in Hf; [| discriminate].
  rewrite (getitem_ticker_of _ _ Ht), Hf.
  destruct (pd.empty df); cbn [negb g_top10_companies log].
  - rewrite <- app_assoc. reflexivity.
  - reflexivity.
Qed.

(** One turn whose fetch raises: nothing is caught. *)
Lemma loop_body_raises (name : string) (fig : go.Figure) (s : state)
    (e : exception) :
  g_top10_companies s = top10_companies ->
  fetched w name = Raise e ->
  loop_body w start (clock w) name fig s =
    (Raise e,
     extend s match getitem top10_companies name with
              | Ok t => [Download t start (clock w)]
              | Raise _ => []
              end).
Proof.
  intros Hg Hf. rewrite fetched_in_range in Hf.
  destruct s as [g l]; cbn in Hg; subst g.
  run_script.
  destruct (getitem top10_companies name) as [t | e'] eqn:Ht;
    cbn [outcome_bind] in Hf.
  - rewrite Hf. reflexivity.
  - rewrite app_nil_r. congruence.
Qed.

(** The loop over labels whose fetches all return. *)
Lemma loop_returns (names : list string) :
  (forall name, In name names -> exists df, fetched w name = Ok df) ->
  forall (fig : go.Figure) (s : state),
  g_top10_companies s = top10_companies ->
  for_each names (loop_body w start (clock w)) fig s =
    (Ok {| go.data := go.data fig ++
                        map (trace_of w) (filter (has_series w) names);
           go.layout := go.layout fig |},
     extend s (flat_map (turn_events w start) names)).
Proof.
  induction names as [| name names IH]; intros Hall fig s Hg.
  - cbn. rewrite app_nil_r, extend_nil. destruct fig; reflexivity.
  - destruct (Hall name (or_introl eq_refl)) as [df Hf].
    cbn [for_each]. unfold bind.
    rewrite (loop_body_returns name fig s df Hg Hf).
    rewrite IH; [| intros; apply Hall; now right | exact Hg].
    rewrite extend_extend. cbn [flat_map filter].
    destruct (has_series w name); cbn [map go.add_trace go.data go.layout].
    + rewrite <- app_assoc. reflexivity.
    + reflexivity.
Qed.

(** Whatever the fetches do, the loop leaves the catalog alone and adds
    only requests for the date range and warnings. *)
Lemma loop_frame (names : list string) (fig : go.Figure) (s : state) :
  exists evs,
    snd (for_each names (loop_body w start (clock w)) fig s) = extend s evs /\
    Forall (loop_event start (clock w)) evs.
Proof.
  revert fig s. induction names as [| name names IH]; intros fig s.
  - exists []. cbn. rewrite extend_nil. auto.
  - cbn [for_each]. unfold bind.
    assert (Hstep : exists evs,
               snd (loop_body w start (clock w) name fig s) = extend s evs /\
               Forall (loop_event start (clock w)) evs).
    { destruct s as [g l]. run_script.
      destruct (getitem g name) as [t | e].
      - destruct (provider w t start (clock w)) as [df | e].
        + destruct (pd.empty df); cbn [negb snd].
          * exists [Download t start (clock w); Warning (warning_text name)].
            split; [now rewrite <- app_assoc |].
            repeat constructor.
          * exists [Download t start (clock w)].
            split; [reflexivity | repeat constructor].
        + exists [Download t start (clock w)].
          split; [reflexivity | repeat constructor].
      - exists []. cbn. rewrite app_nil_r. auto. }
    destruct Hstep as (evs1 & E1 & F1).
    destruct (loop_body w start (clock w) name fig s) as [[fig' | e] s'];
      cbn [snd] in E1; subst s'.
    + destruct (IH fig' (extend s evs1)) as (evs2 & E2 & F2).
      exists (evs1 ++ evs2). rewrite E2, extend_extend.
      split; [reflexivity | now apply Forall_app].
    + exists evs1. auto.
Qed.

End Loop.

(** ** The page *)

(** Lines 8-24 always succeed: the default is among the options. *)
Lemma page_start (w : World) (s : state) :
  page w s = pipeline w (selected w) (started s).
Proof.
  unfold page, st_multiselect, selected, started. run_script.
  change (forallb (fun v => existsb (String.eqb v) (keys top10_companies))
            multiselect_default) with true.
  run_script. unfold preamble. rewrite <- app_assoc. reflexivity.
Qed.

Lemma pipeline_empty (w : World) (s : state) :
  pipeline w [] s = (Ok tt, extend s [Info info_text]).
Proof. reflexivity. Qed.

Lemma pipeline_nonempty (w : World) (sel : list string) (s : state) :
  sel <> [] ->
  pipeline w sel s =
    match start_date (clock w) with
    | Ok start =>
        finish (for_each sel (loop_body w start (clock w)) go.new_Figure s)
    | Raise e => (Raise e, s)
    end.
Proof.
  intros Hne. destruct sel as [| name sel]; [congruence |].
  unfold pipeline, truthy, end_date, finish. run_script.
  destruct (start_date (clock w)) as [start | e]; [| reflexivity].
  destruct (for_each _ _ _ s) as [[fig | e] s']; reflexivity.
Qed.

(** Reading the output of a pass off its final log. *)
Lemma output_of (w : World) (s : state) (evs : list event) :
  log (snd (page w s)) = log s ++ evs -> output w s = evs.
Proof.
  intros E. unfold output. rewrite E.
  rewrite skipn_app, skipn_all, Nat.sub_diag. reflexivity.
Qed.

(** A pass whose fetches all return. *)
Lemma page_returns (w : World) (s : state) :
  selected w <> [] ->
  (forall name, In name (selected w) -> exists df, fetched w name = Ok df) ->
  exists start,
    start_date (clock w) = Ok start /\
    page w s =
      (Ok tt,
       extend (started s)
         (flat_map (turn_events w start) (selected w)
          ++ [PlotlyChart (figure w) true])).
Proof.
  intros Hne Hall.
  destruct (start_date (clock w)) as [start | e] eqn:Hstart.
  - exists start. split; [reflexivity |].
    rewrite page_start, pipeline_nonempty, Hstart by exact Hne.
    rewrite (loop_returns w start Hstart (selected w) Hall)
      by reflexivity.
    unfold finish. rewrite extend_extend. reflexivity.
  - destruct (selected w) as [| name sel]; [congruence |].
    destruct (Hall name (or_introl eq_refl)) as [df Hf].
    unfold fetched in Hf. rewrite Hstart in Hf. discriminate.
Qed.

Lemma output_returns (w : World) (s : state) :
  selected w <> [] ->
  (forall name, In name (selected w) -> exists df, fetched w name = Ok df) ->
  exists start,
    start_date (clock w) = Ok start /\
    result w s = Ok tt /\
    output w s =
      preamble ++ flat_map (turn_events w start) (selected w)
      ++ [PlotlyChart (figure w) true].
Proof.
  intros Hne Hall.
  destruct (page_returns w s Hne Hall) as (start & Hstart & E).
  exists start. split; [exact Hstart |]. split.
  - unfold result. rewrite E. reflexivity.
  - apply output_of. rewrite E. unfold extend, started; cbn [log snd].
    rewrite <- app_assoc. reflexivity.
Qed.

(** Whatever the world does, lines 26-58 leave the catalog alone and only
    add to the log: a prompt for an empty selection; requests for the date
    range, warnings and at most a chart, laid out as [page_layout],
    otherwise. *)
Lemma pipeline_frame (w : World) (sel : list string) (s : state) :
  exists evs,
    snd (pipeline w sel s) = extend s evs /\
    (forall fig, In fig (charts evs) -> go.layout fig = page_layout) /\
    (sel = [] -> evs = [Info info_text]) /\
    (sel <> [] ->
     infos evs = [] /\
     forall t a b, In (t, a, b) (requests evs) ->
                   start_date (clock w) = Ok a /\ b = clock w).
Proof.
  destruct sel as [| name sel].
  - exists [Info info_text]. split; [reflexivity |].
    split; [cbn; contradiction |]. split; [auto | congruence].
  - rewrite pipeline_nonempty by discriminate.
    destruct (start_date (clock w)) as [start | e] eqn:Hstart.
    + destruct (loop_frame w start (name :: sel) go.new_Figure s)
        as (evs & E & F).
      destruct (loop_events_quiet _ _ _ F) as [Hi Hc].
      pose proof (loop_events_requests _ _ _ F) as Hr.
      destruct (for_each _ _ _ s) as [[fig | e] s']; cbn [snd] in E; subst s'.
      * eexists. unfold finish; cbn [snd]. rewrite extend_extend.
        split; [reflexivity |].
        rewrite charts_app, infos_app, requests_app, Hi, Hc. cbn.
        rewrite app_nil_r. split.
        { intros fig' [<- | []]. reflexivity. }
        split; [discriminate |]. intros _. split; [reflexivity |].
        intros t a b Hin. destruct (Hr t a b Hin); subst; auto.
      * exists evs. split; [reflexivity |]. rewrite Hc.
        split; [cbn; contradiction |]. split; [discriminate |]. intros _.
        split; [exact Hi |].
        intros t a b Hin. destruct (Hr t a b Hin); subst; auto.
    + exists []. cbn [snd]. rewrite extend_nil.
      split; [reflexivity |]. split; [cbn; contradiction |].
      split; [discriminate |]. intros _.
      split; [reflexivity |]. cbn. contradiction.
Qed.

Lemma page_frame (w : World) (s : state) :
  exists evs,
    snd (page w s) = extend (started s) evs /\
    output w s = preamble ++ evs /\
    (forall fig, In fig (charts evs) -> go.layout fig = page_layout) /\
    (selected w = [] -> evs = [Info info_text]) /\
    (selected w <> [] ->
     infos evs = [] /\
     forall t a b, In (t, a, b) (requests evs) ->
                   start_date (clock w) = Ok a /\ b = clock w).
Proof.
  destruct (pipeline_frame w (selected w) (started s)) as (evs & E & H).
  exists evs. rewrite page_start. split; [exact E |]. split; [| exact H].
  apply output_of. rewrite page_start, E. unfold extend, started; cbn [log].
  rewrite <- app_assoc. reflexivity.
Qed.

(** ** Two passes *)

(** Two loops over the same labels with the same fetch results end alike
    and warn alike. *)
Lemma loop_deterministic (w1 w2 : World) (start1 start2 : datetime)
    (names : list string) :
  start_date (clock w1) = Ok start1 ->
  start_date (clock w2) = Ok start2 ->
  (forall name, In name names -> fetched w1 name = fetched w2 name) ->
  forall (fig : go.Figure) (s1 s2 : state),
  g_top10_companies s1 = top10_companies ->
  g_top10_companies s2 = top10_companies ->
  exists r evs1 evs2,
    for_each names (loop_body w1 start1 (clock w1)) fig s1 = (r, extend s1 evs1) /\
    for_each names (loop_body w2 start2 (clock w2)) fig s2 = (r, extend s2 evs2) /\
    warnings evs1 = warnings evs2 /\
    Forall (loop_event start1 (clock w1)) evs1 /\
    Forall (loop_event start2 (clock w2)) evs2.
Proof.
  intros H1 H2. induction names as [| name names IH]; intros Hsame fig s1 s2 G1 G2.
  - exists (Ok fig), [], []. cbn. rewrite !extend_nil. auto.
  - cbn [for_each]. unfold bind.
    pose proof (Hsame name (or_introl eq_refl)) as Hf.
    destruct (fetched w1 name) as [df | e] eqn:F1; symmetry in Hf.
    + rewrite (loop_body_returns w1 start1 H1 name fig s1 df G1 F1).
      rewrite (loop_body_returns w2 start2 H2 name fig s2 df G2 Hf).
      assert (Et : trace_of w2 name = trace_of w1 name)
        by (unfold trace_of, series; now rewrite F1, Hf).
      assert (Eh : has_series w2 name = has_series w1 name)
        by (unfold has_series; now rewrite F1, Hf).
      assert (En : no_series w2 name = no_series w1 name)
        by (unfold no_series; now rewrite F1, Hf).
      rewrite Et, Eh.
      destruct (IH (fun n Hn => Hsame n (or_intror Hn))
                  (if has_series w1 name
                   then go.add_trace fig (trace_of w1 name) else fig)
                  (extend s1 (turn_events w1 start1 name))
                  (extend s2 (turn_events w2 start2 name)) G1 G2)
        as (r & evs1 & evs2 & E1 & E2 & Ew & Fa1 & Fa2).
      exists r, (turn_events w1 start1 name ++ evs1),
        (turn_events w2 start2 name ++ evs2).
      rewrite E1, E2, !extend_extend, !warnings_app, Ew.
      unfold turn_events. rewrite En.
      repeat split; try reflexivity; apply Forall_app; split; auto;
        destruct (no_series w1 name); repeat constructor.
    + rewrite (loop_body_raises w1 start1 H1 name fig s1 e G1 F1).
      rewrite (loop_body_raises w2 start2 H2 name fig s2 e G2 Hf).
      do 3 eexists. split; [reflexivity |]. split; [reflexivity |].
      destruct (getitem top10_companies name); cbn;
        repeat split; repeat constructor.
Qed.

(** ** Texts *)

Lemma length_append (a b : string) :
  String.length (a ++ b)%string = (String.length a + String.length b)%nat.
Proof. induction a as [| c a IH]; cbn; [reflexivity | now rewrite IH]. Qed.

(** A warning names its label: different labels give different warnings. *)
Lemma append_cancel_r (a b suffix : string) :
  (a ++ suffix)%string = (b ++ suffix)%string -> a = b.
Proof.
  revert b. induction a as [| c a IH]; intros [| c' b] E; cbn in E.
  - reflexivity.
  - apply (f_equal String.length) in E. cbn in E.
    rewrite length_append in E. lia.
  - apply (f_equal String.length) in E. cbn in E.
    rewrite length_append in E. lia.
  - inversion E; subst. f_equal. now apply IH.
Qed.

Lemma warning_text_injective (a b : string) :
  warning_text a = warning_text b -> a = b.
Proof. apply append_cancel_r. Qed.

(** ** Reading the output of a pass whose fetches return *)

Lemma warnings_turns (w : World) (start : datetime) (names : list string) :
  warnings (flat_map (turn_events w start) names) =
    map warning_text (filter (no_series w) names).
Proof.
  induction names as [| name names IH]; [reflexivity |].
  cbn [flat_map filter]. rewrite warnings_app, IH. unfold turn_events.
  destruct (no_series w name); reflexivity.
Qed.

Lemma requests_turns (w : World) (start : datetime) (names : list string) :
  requests (flat_map (turn_events w start) names) =
    map (fun name => (ticker_of name, start, clock w)) names.
Proof.
  induction names as [| name names IH]; [reflexivity |].
  cbn [flat_map map]. rewrite requests_app, IH. unfold turn_events.
  destruct (no_series w name); reflexivity.
Qed.

Lemma turns_quiet (w : World) (start : datetime) (names : list string) :
  infos (flat_map (turn_events w start) names) = [] /\
  charts (flat_map (turn_events w start) names) = [].
Proof.
  apply (loop_events_quiet start (clock w)).
  induction names as [| name names IH]; [constructor |].
  cbn [flat_map]. apply Forall_app. split; [| exact IH].
  unfold turn_events. destruct (no_series w name); repeat constructor.
Qed.

Lemma figure_names (w : World) :
  map go.name (go.data (figure w)) = filter (has_series w) (selected w).
Proof.
  unfold figure; cbn [go.data]. rewrite map_map. cbn [trace_of go.name].
  apply map_id.
Qed.

Lemma no_series_has_series (w : World) (name : string) :
  no_series w name = true -> has_series w name = false.
Proof.
  unfold no_series, has_series.
  destruct (fetched w name) as [df | e]; [| reflexivity].
  intros ->. reflexivity.
Qed.

(** In a pass whose fetches all return, the page ends normally, shows the
    one [figure], warns once per series without rows, in order, and has
    asked the provider once per label, in order. *)
Lemma pass_summary (w : World) (s : state) :
  selected w <> [] ->
  (forall name, In name (selected w) -> exists df, fetched w name = Ok df) ->
  result w s = Ok tt /\
  charts (output w s) = [figure w] /\
  warnings (output w s) = map warning_text (filter (no_series w) (selected w)) /\
  infos (output w s) = [] /\
  exists start,
    start_date (clock w) = Ok start /\
    requests (output w s) =
      map (fun name => (ticker_of name, start, clock w)) (selected w).
Proof.
  intros Hne Hall.
  destruct (output_returns w s Hne Hall) as (start & Hstart & Hr & Ho).
  destruct (turns_quiet w start (selected w)) as [Hi Hc].
  rewrite Ho, !charts_app, !warnings_app, !infos_app, !requests_app.
  rewrite Hi, Hc, warnings_turns, requests_turns. cbn.
  rewrite !app_nil_r. repeat split; try reflexivity; try exact Hr.
  exists start. auto.
Qed.

(** Counting a label in the kept part of a duplicate-free selection. *)
Lemma count_occ_filter_NoDup (f : string -> bool) (l : list string)
    (a : string) :
  NoDup l ->
  count_occ string_dec (filter f l) a =
    if existsb (String.eqb a) l && f a then 1%nat else 0%nat.
Proof.
  induction 1 as [| b l Hnotin Hnd IH]; [reflexivity |].
  cbn [filter existsb]. destruct (String.eqb_spec a b) as [<- | Hab].
  - cbn [orb andb].
    assert (Hz : count_occ string_dec (filter f l) a = 0%nat).
    { apply count_occ_not_In. rewrite filter_In. tauto. }
    destruct (f a).
    + rewrite count_occ_cons_eq, Hz; reflexivity.
    + exact Hz.
  - cbn [orb]. destruct (f b); [| exact IH].
    rewrite count_occ_cons_neq by congruence. exact IH.
Qed.

(** * The properties of the specification *)

(** Checking by evaluation that every fetch of a selection returns. *)
Lemma fetches_return (w : World) :
  forallb (fun name => match fetched w name with
                       | Ok _ => true
                       | Raise _ => false
                       end) (selected w) = true ->
  forall name, In name (selected w) -> exists df, fetched w name = Ok df.
Proof.
  intros Hall name Hin. rewrite forallb_forall in Hall.
  specialize (Hall name Hin).
  destruct (fetched w name) as [df | e]; [eauto | discriminate].
Qed.

(** C1. For every non-empty selection of catalog labels whose fetches
    return, the pass shows one figure, and that figure holds exactly one
    trace named by each selected label whose series has rows, and no trace
    for a label whose series is empty or that was not selected. *)
Theorem C1_one_trace_per_nonempty_series (w : World) (s : state) :
  selected w <> [] ->
  NoDup (selected w) ->
  (forall name, In name (selected w) -> exists df, fetched w name = Ok df) ->
  exists fig,
    result w s = Ok tt /\
    charts (output w s) = [fig] /\
    List.length (go.data fig) =
      List.length (filter (has_series w) (selected w)) /\
    forall name,
      traces_named name fig =
        if existsb (String.eqb name) (selected w) && has_series w name
        then 1%nat else 0%nat.
Proof.
  intros Hne Hnd Hall.
  destruct (pass_summary w s Hne Hall) as (Hr & Hc & _).
  exists (figure w). repeat split; try assumption.
  - rewrite <- figure_names. now rewrite length_map.
  - intros name. unfold traces_named. rewrite figure_names.
    now apply count_occ_filter_NoDup.
Qed.

Lemma C1_witness :
  exists fig,
    result Sample.mixed Sample.fresh = Ok tt /\
    charts (output Sample.mixed Sample.fresh) = [fig] /\
    List.length (go.data fig) =
      List.length (filter (has_series Sample.mixed) (selected Sample.mixed)) /\
    forall name,
      traces_named name fig =
        if existsb (String.eqb name) (selected Sample.mixed)
           && has_series Sample.mixed name
        then 1%nat else 0%nat.
Proof.
  apply (C1_one_trace_per_nonempty_series Sample.mixed Sample.fresh).
  - discriminate.
  - repeat constructor; cbn; intuition discriminate.
  - apply fetches_return. vm_compute. reflexivity.
Defined.

(** C10. In a pass whose fetches return, the traces of the figure stand in
    the order of the selection: the k-th trace is named by the k-th selected
    label whose series has rows, its x-values are the index of the table
    fetched for that label and its y-values the table's closing prices. *)
Theorem C10_traces_in_selection_order (w : World) (s : state) :
  selected w <> [] ->
  (forall name, In name (selected w) -> exists df, fetched w name = Ok df) ->
  exists fig,
    charts (output w s) = [fig] /\
    map go.name (go.data fig) = filter (has_series w) (selected w) /\
    forall k name,
      nth_error (filter (has_series w) (selected w)) k = Some name ->
      exists df,
        fetched w name = Ok df /\
        nth_error (go.data fig) k =
          Some {| go.x := pd.index df; go.y := pd.Close df;
                  go.mode := "lines"; go.name := name |}.
Proof.
  intros Hne Hall.
  destruct (pass_summary w s Hne Hall) as (_ & Hc & _).
  exists (figure w). split; [exact Hc |]. split; [apply figure_names |].
  intros k name Hk.
  assert (Hin : In name (selected w)).
  { apply nth_error_In in Hk. apply filter_In in Hk. tauto. }
  destruct (Hall name Hin) as [df Hf]. exists df. split; [exact Hf |].
  unfold figure; cbn [go.data].
  rewrite (map_nth_error (trace_of w) k _ Hk).
  unfold trace_of, series. rewrite Hf. reflexivity.
Qed.

Lemma C10_witness :
  exists fig,
    charts (output Sample.mixed Sample.stale) = [fig] /\
    map go.name (go.data fig) =
      filter (has_series Sample.mixed) (selected Sample.mixed) /\
    forall k name,
      nth_error (filter (has_series Sample.mixed) (selected Sample.mixed)) k
        = Some name ->
      exists df,
        fetched Sample.mixed name = Ok df /\
        nth_error (go.data fig) k =
          Some {| go.x := pd.index df; go.y := pd.Close df;
                  go.mode := "lines"; go.name := name |}.
Proof.
  apply (C10_traces_in_selection_order Sample.mixed Sample.stale).
  - discriminate.
  - apply fetches_return. vm_compute. reflexivity.
Defined.

(** C4. In a pass over a duplicate-free selection whose fetches return, a
    label whose series is empty gets exactly one warning that names it and
    no trace, and the pass goes on: it ends normally, the provider has been
    asked for every selected label, in order, and every selected label whose
    series has rows has its trace. *)
Theorem C4_empty_series_warns_once (w : World) (s : state) (name : string) :
  NoDup (selected w) ->
  (forall n, In n (selected w) -> exists df, fetched w n = Ok df) ->
  In name (selected w) ->
  no_series w name = true ->
  exists fig,
    result w s = Ok tt /\
    charts (output w s) = [fig] /\
    count_occ string_dec (warnings (output w s)) (warning_text name) = 1%nat /\
    traces_named name fig = 0%nat /\
    map (fun r => fst (fst r)) (requests (output w s)) =
      map ticker_of (selected w) /\
    forall other,
      In other (selected w) -> has_series w other = true ->
      traces_named other fig = 1%nat.
Proof.
  intros Hnd Hall Hin Hempty.
  assert (Hne : selected w <> []) by (intros E; rewrite E in Hin; contradiction).
  destruct (pass_summary w s Hne Hall)
    as (Hr & Hc & Hw & _ & start & _ & Hq).
  assert (Hmem : forall n, In n (selected w) ->
                           existsb (String.eqb n) (selected w) = true).
  { intros n Hn. apply existsb_exists. exists n. split; [exact Hn |].
    apply String.eqb_refl. }
  exists (figure w). repeat split; try assumption.
  - rewrite Hw.
    rewrite <- (count_occ_map warning_text string_dec string_dec
                  warning_text_injective).
    rewrite count_occ_filter_NoDup, Hmem, Hempty by assumption. reflexivity.
  - unfold traces_named. rewrite figure_names.
    rewrite count_occ_filter_NoDup, (no_series_has_series _ _ Hempty)
      by assumption.
    now rewrite andb_false_r.
  - rewrite Hq, map_map. reflexivity.
  - intros other Ho Hhas. unfold traces_named. rewrite figure_names.
    rewrite count_occ_filter_NoDup, Hmem, Hhas by assumption. reflexivity.
Qed.

Lemma C4_witness :
  exists fig,
    result Sample.mixed Sample.fresh = Ok tt /\
    charts (output Sample.mixed Sample.fresh) = [fig] /\
    count_occ string_dec (warnings (output Sample.mixed Sample.fresh))
      (warning_text "TSMC (TSM)") = 1%nat /\
    traces_named "TSMC (TSM)" fig = 0%nat /\
    map (fun r => fst (fst r)) (requests (output Sample.mixed Sample.fresh)) =
      map ticker_of (selected Sample.mixed) /\
    forall other,
      In other (selected Sample.mixed) ->
      has_series Sample.mixed other = true ->
      traces_named other fig = 1%nat.
Proof.
  apply (C4_empty_series_warns_once Sample.mixed Sample.fresh "TSMC (TSM)").
  - repeat constructor; cbn; intuition discriminate.
  - apply fetches_return. vm_compute. reflexivity.
  - cbn. tauto.
  - vm_compute. reflexivity.
Defined.

(** C6. Every figure a pass shows has the layout of lines 48-54: the
    title (in English: comparison of stock prices over the last 3 years, by
    closing price), the titles of the two axes (date, and price in dollars),
    the unified hover mode and the white template.  A pass over a non-empty
    selection whose fetches return shows one figure; so the layout is the
    same for every such selection, whatever was selected and however many
    traces were added. *)
Theorem C6_layout_is_fixed (w : World) (s : state) :
  (forall fig,
     In fig (charts (output w s)) ->
     go.layout fig =
       {| go.title := Some "최근 3년간 주가 비교 (종가 기준)";
          go.xaxis_title := Some "날짜";
          go.yaxis_title := Some "주가 ($)";
          go.hovermode := Some "x unified";
          go.template := Some "plotly_white" |}) /\
  (selected w <> [] ->
   (forall name, In name (selected w) -> exists df, fetched w name = Ok df) ->
   exists fig, charts (output w s) = [fig]).
Proof.
  split.
  - intros fig Hin. destruct (page_frame w s) as (evs & _ & Ho & Hl & _).
    rewrite Ho, charts_app in Hin. cbn [preamble charts app] in Hin.
    exact (Hl fig Hin).
  - intros Hne Hall.
    destruct (pass_summary w s Hne Hall) as (_ & Hc & _). eauto.
Qed.

Lemma C6_witness :
  exists fig,
    charts (output Sample.untouched Sample.fresh) = [fig] /\
    go.layout fig =
      {| go.title := Some "최근 3년간 주가 비교 (종가 기준)";
         go.xaxis_title := Some "날짜";
         go.yaxis_title := Some "주가 ($)";
         go.hovermode := Some "x unified";
         go.template := Some "plotly_white" |}.
Proof.
  destruct (C6_layout_is_fixed Sample.untouched Sample.fresh) as [Hl Hc].
  destruct Hc as [fig Hfig].
  - discriminate.
  - apply fetches_return. vm_compute. reflexivity.
  - exists fig. split; [exact Hfig |]. apply Hl. rewrite Hfig. now left.
Defined.

(** C3. A pass with an empty selection ends normally having shown the
    prompt that asks for at least one company, and nothing else after the
    widget: no request, no chart.  A pass with a non-empty selection never
    shows the prompt, and shows one chart when its fetches return. *)
Theorem C3_prompt_or_chart (w : World) (s : state) :
  (selected w = [] ->
   result w s = Ok tt /\
   output w s = preamble ++ [Info "기업을 하나 이상 선택해주세요."] /\
   charts (output w s) = [] /\
   requests (output w s) = []) /\
  (selected w <> [] ->
   infos (output w s) = [] /\
   ((forall name, In name (selected w) -> exists df, fetched w name = Ok df) ->
    result w s = Ok tt /\ exists fig, charts (output w s) = [fig])).
Proof.
  split.
  - intros Hsel.
    assert (E : page w s = (Ok tt, extend (started s) [Info info_text])).
    { rewrite page_start, Hsel. apply pipeline_empty. }
    assert (Ho : output w s = preamble ++ [Info info_text]).
    { apply output_of. rewrite E. unfold extend, started; cbn [log snd].
      now rewrite <- app_assoc. }
    unfold result. rewrite E, Ho. repeat split; reflexivity.
  - intros Hne.
    destruct (page_frame w s) as (evs & _ & Ho & _ & _ & Hq).
    destruct (Hq Hne) as [Hi _]. split.
    + rewrite Ho, infos_app, Hi. reflexivity.
    + intros Hall.
      destruct (pass_summary w s Hne Hall) as (Hr & Hc & _). eauto.
Qed.

Lemma C3_witness :
  (result Sample.cleared Sample.fresh = Ok tt /\
   output Sample.cleared Sample.fresh =
     preamble ++ [Info "기업을 하나 이상 선택해주세요."] /\
   charts (output Sample.cleared Sample.fresh) = [] /\
   requests (output Sample.cleared Sample.fresh) = []) /\
  (infos (output Sample.mixed Sample.fresh) = [] /\
   result Sample.mixed Sample.fresh = Ok tt /\
   exists fig, charts (output Sample.mixed Sample.fresh) = [fig]).
Proof.
  split.
  - apply (C3_prompt_or_chart Sample.cleared Sample.fresh). reflexivity.
  - destruct (C3_prompt_or_chart Sample.mixed Sample.fresh) as [_ H].
    destruct H as [Hi Hc]; [discriminate |].
    split; [exact Hi |]. apply Hc.
    apply fetches_return. vm_compute. reflexivity.
Defined.

(** C7. The widget of line 24 offers exactly the labels of the catalog, in
    the catalog's order, and its default is the first two of them, Apple
    and Microsoft: that is the selection of a pass in which the user has not
    touched the widget, as the user's choice is of any other pass. *)
Theorem C7_multiselect_options_and_default (w : World) (s : state) :
  exists rest,
    output w s =
      Title page_title
      :: Multiselect multiselect_label (map fst top10_companies)
           (firstn 2 (map fst top10_companies))
      :: rest /\
    firstn 2 (map fst top10_companies) =
      ["Apple (AAPL)"; "Microsoft (MSFT)"] /\
    page w s =
      pipeline w
        match widget w with
        | Some chosen => chosen
        | None => ["Apple (AAPL)"; "Microsoft (MSFT)"]
        end
        (started s).
Proof.
  destruct (page_frame w s) as (evs & _ & Ho & _).
  exists evs. split; [exact Ho |]. split; [reflexivity |].
  apply page_start.
Qed.

(** C9. The catalog has exactly ten entries, its labels are pairwise
    different and not empty, and so are its tickers; every pass leaves the
    module global holding it, and nothing in lines 26-58 changes the
    global, whatever the selection and the fetches. *)
Theorem C9_catalog_is_constant :
  List.length top10_companies = 10%nat /\
  NoDup (map fst top10_companies) /\
  NoDup (map snd top10_companies) /\
  Forall (fun entry => fst entry <> "" /\ snd entry <> "") top10_companies /\
  (forall w s, g_top10_companies (snd (page w s)) = top10_companies) /\
  (forall w selection s,
     g_top10_companies (snd (pipeline w selection s)) = g_top10_companies s).
Proof.
  split; [reflexivity |].
  split; [repeat constructor; cbn; intuition discriminate |].
  split; [repeat constructor; cbn; intuition discriminate |].
  split; [repeat constructor; cbn; discriminate |].
  split.
  - intros w s. destruct (page_frame w s) as (evs & E & _).
    rewrite E. reflexivity.
  - intros w selection s.
    destruct (pipeline_frame w selection s) as (evs & E & _).
    rewrite E. reflexivity.
Qed.

(** The range between a date and the same time of day [n] days earlier. *)
Lemma sub_days_back (d : datetime) (n : Z) :
  valid d -> 0 <= n <= 999999999 ->
  Datetime.sub d {| toordinal := toordinal d - n; hour := hour d;
                    minute := minute d; second := second d;
                    microsecond := microsecond d |} =
    Ok {| days := n; seconds := 0; microseconds := 0 |}.
Proof.
  intros (Hord & Hh & Hm & Hs & Hus) Hn.
  unfold Datetime.sub; cbn [toordinal hour minute second microsecond].
  replace (toordinal d - (toordinal d - n)) with n by lia.
  rewrite !Z.sub_diag. apply new_timedelta_in_range; lia.
Qed.

(** C2. In every pass, at whatever time of a clock that [datetime] can
    hold from 0004-01-01 on, the end of the date range is the clock's
    reading, the start is the same time of day 1095 days earlier, their
    difference is [timedelta(days=1095)] exactly, and every request of the
    pass to the provider carries this range. *)
Theorem C2_range_is_1095_days (w : World) (s : state) :
  valid (clock w) -> 1095 < toordinal (clock w) ->
  exists start,
    start_date (clock w) = Ok start /\
    end_date (clock w) = clock w /\
    toordinal start = toordinal (clock w) - 1095 /\
    Datetime.sub (end_date (clock w)) start =
      Ok {| days := 1095; seconds := 0; microseconds := 0 |} /\
    forall ticker a b,
      In (ticker, a, b) (requests (output w s)) -> a = start /\ b = clock w.
Proof.
  intros Hv Hlo. eexists. split; [apply (start_date_ok _ Hv Hlo) |].
  split; [reflexivity |]. split; [reflexivity |].
  split; [apply sub_days_back; [exact Hv | lia] |].
  intros ticker a b Hin.
  destruct (page_frame w s) as (evs & _ & Ho & _ & Hnil & Hq).
  rewrite Ho, requests_app in Hin. cbn [preamble requests app] in Hin.
  destruct (selected w) as [| name sel] eqn:Hsel.
  - rewrite (Hnil eq_refl) in Hin. contradiction.
  - assert (Hne : name :: sel <> []) by discriminate.
    destruct (Hq Hne) as [_ Hr]. destruct (Hr _ _ _ Hin) as [Ha Hb].
    rewrite (start_date_ok _ Hv Hlo) in Ha. split; congruence.
Qed.

Lemma C2_witness :
  exists start,
    start_date (clock Sample.mixed) = Ok start /\
    end_date (clock Sample.mixed) = clock Sample.mixed /\
    toordinal start = toordinal (clock Sample.mixed) - 1095 /\
    Datetime.sub (end_date (clock Sample.mixed)) start =
      Ok {| days := 1095; seconds := 0; microseconds := 0 |} /\
    forall ticker a b,
      In (ticker, a, b) (requests (output Sample.mixed Sample.fresh)) ->
      a = start /\ b = clock Sample.mixed.
Proof.
  apply (C2_range_is_1095_days Sample.mixed Sample.fresh).
  - cbn. unfold valid, MAXORDINAL. cbn. lia.
  - cbn. lia.
Defined.

(** C8. When the provider raises for a selected label, after the fetches
    of the labels before it have returned, the pass ends with that very
    exception: nothing catches it.  The log of the pass stops at the failed
    request: no warning names the label, the labels after it are never
    looked at, and no chart is shown. *)
Theorem C8_raising_fetch_fails_the_pass (w : World) (s : state)
    (before after : list string) (name ticker : string) (start : datetime)
    (e : exception) :
  selected w = before ++ name :: after ->
  (forall n, In n before -> exists df, fetched w n = Ok df) ->
  start_date (clock w) = Ok start ->
  getitem top10_companies name = Ok ticker ->
  provider w ticker start (clock w) = Raise e ->
  result w s = Raise e /\
  output w s =
    preamble ++ flat_map (turn_events w start) before
    ++ [Download ticker start (clock w)] /\
  ~ In (warning_text name) (warnings (output w s)) /\
  requests (output w s) =
    map (fun n => (ticker_of n, start, clock w)) (before ++ [name]) /\
  charts (output w s) = [].
Proof.
  intros Hsel Hbefore Hstart Hticker Hraise.
  assert (Hf : fetched w name = Raise e).
  { rewrite (fetched_in_range w start Hstart), Hticker. exact Hraise. }
  assert (E : page w s =
              (Raise e,
               extend (started s)
                 (flat_map (turn_events w start) before
                  ++ [Download ticker start (clock w)]))).
  { rewrite page_start, pipeline_nonempty, Hstart
      by (rewrite Hsel; destruct before; discriminate).
    rewrite Hsel, for_each_app. unfold bind at 1.
    rewrite (loop_returns w start Hstart before Hbefore) by reflexivity.
    cbn [for_each]. unfold bind at 1.
    rewrite (loop_body_raises w start Hstart name _ _ e) by (reflexivity || exact Hf).
    rewrite Hticker, extend_extend. reflexivity. }
  assert (Ho : output w s =
               preamble ++ flat_map (turn_events w start) before
               ++ [Download ticker start (clock w)]).
  { apply output_of. rewrite E. unfold extend, started; cbn [log snd].
    now rewrite <- app_assoc. }
  destruct (turns_quiet w start before) as [_ Hc].
  split; [unfold result; now rewrite E |]. split; [exact Ho |].
  rewrite Ho, !warnings_app, !requests_app, !charts_app, Hc.
  rewrite warnings_turns, requests_turns. cbn [preamble warnings requests charts app].
  rewrite app_nil_r. repeat split.
  - intros Hin. apply in_map_iff in Hin. destruct Hin as (n & Hn & Hin).
    apply warning_text_injective in Hn. subst n. apply filter_In in Hin.
    destruct (Hbefore name (proj1 Hin)) as [df Hdf]. congruence.
  - rewrite map_app. cbn [map]. now rewrite (getitem_ticker_of _ _ Hticker).
Qed.

Lemma C8_witness :
  result Sample.failing Sample.fresh = Raise (ProviderError "HTTP 429") /\
  output Sample.failing Sample.fresh =
    preamble
    ++ flat_map (turn_events Sample.failing
                   {| toordinal := 738322; hour := 10; minute := 30;
                      second := 0; microsecond := 0 |})
         ["Apple (AAPL)"; "TSMC (TSM)"]
    ++ [Download "NVDA"
          {| toordinal := 738322; hour := 10; minute := 30;
             second := 0; microsecond := 0 |}
          (clock Sample.failing)] /\
  ~ In (warning_text "NVIDIA (NVDA)")
       (warnings (output Sample.failing Sample.fresh)) /\
  requests (output Sample.failing Sample.fresh) =
    map (fun n => (ticker_of n,
                   {| toordinal := 738322; hour := 10; minute := 30;
                      second := 0; microsecond := 0 |},
                   clock Sample.failing))
        (["Apple (AAPL)"; "TSMC (TSM)"] ++ ["NVIDIA (NVDA)"]) /\
  charts (output Sample.failing Sample.fresh) = [].
Proof.
  apply (C8_raising_fetch_fails_the_pass Sample.failing Sample.fresh
           ["Apple (AAPL)"; "TSMC (TSM)"] ["Visa (V)"] "NVIDIA (NVDA)" "NVDA"
           {| toordinal := 738322; hour := 10; minute := 30;
              second := 0; microsecond := 0 |}
           (ProviderError "HTTP 429")).
  - reflexivity.
  - intros n [<- | [<- | []]]; eexists; vm_compute; reflexivity.
  - vm_compute. reflexivity.
  - vm_compute. reflexivity.
  - vm_compute. reflexivity.
Defined.

(** A pass whose first fetch cannot even start. *)
Lemma first_fetch_raises (w : World) (start : datetime) (name : string)
    (rest : list string) (s : state) (e : exception) :
  start_date (clock w) = Ok start ->
  g_top10_companies s = top10_companies ->
  fetched w name = Raise e ->
  exists evs,
    finish (for_each (name :: rest) (loop_body w start (clock w))
                     go.new_Figure s) = (Raise e, extend s evs) /\
    warnings evs = [] /\ charts evs = [] /\ infos evs = [].
Proof.
  intros Hstart Hg Hf. cbn [for_each]. unfold bind.
  rewrite (loop_body_raises w start Hstart name _ s e Hg Hf).
  eexists. split; [reflexivity |].
  destruct (getitem top10_companies name); repeat split; reflexivity.
Qed.

Lemma pipeline_deterministic (w1 w2 : World) (sel : list string)
    (s1 s2 : state) :
  g_top10_companies s1 = top10_companies ->
  g_top10_companies s2 = top10_companies ->
  (forall name, In name sel -> fetched w1 name = fetched w2 name) ->
  same_page (pipeline w1 sel s1) (pipeline w2 sel s2) s1 s2.
Proof.
  intros G1 G2 Hsame. unfold same_page. destruct sel as [| name rest].
  - rewrite !pipeline_empty. do 2 eexists. cbn [fst snd].
    repeat split; reflexivity.
  - rewrite !pipeline_nonempty by discriminate.
    pose proof (Hsame name (or_introl eq_refl)) as Hf.
    destruct (start_date (clock w1)) as [start1 | e1] eqn:H1;
      destruct (start_date (clock w2)) as [start2 | e2] eqn:H2.
    + destruct (loop_deterministic w1 w2 start1 start2 (name :: rest) H1 H2
                  Hsame go.new_Figure s1 s2 G1 G2)
        as (r & evs1 & evs2 & E1 & E2 & Ew & F1 & F2).
      destruct (loop_events_quiet _ _ _ F1) as [Hi1 Hc1].
      destruct (loop_events_quiet _ _ _ F2) as [Hi2 Hc2].
      rewrite E1, E2. destruct r as [fig | e]; unfold finish; cbn [fst snd].
      * rewrite !extend_extend. do 2 eexists.
        split; [reflexivity |]. split; [reflexivity |].
        rewrite !charts_app, !warnings_app, !infos_app, Hc1, Hc2, Hi1, Hi2, Ew.
        repeat split; reflexivity.
      * do 2 eexists. split; [reflexivity |]. split; [reflexivity |].
        rewrite Hc1, Hc2, Hi1, Hi2, Ew. repeat split; reflexivity.
    + assert (F2 : fetched w2 name = Raise e2)
        by (unfold fetched; now rewrite H2).
      rewrite F2 in Hf.
      destruct (first_fetch_raises w1 start1 name rest s1 e2 H1 G1 Hf)
        as (evs & E & Hw & Hc & Hi).
      rewrite E. exists evs, []. cbn [fst snd]. rewrite extend_nil.
      rewrite Hw, Hc, Hi. repeat split; reflexivity.
    + assert (F1 : fetched w1 name = Raise e1)
        by (unfold fetched; now rewrite H1).
      rewrite F1 in Hf. symmetry in Hf.
      destruct (first_fetch_raises w2 start2 name rest s2 e1 H2 G2 Hf)
        as (evs & E & Hw & Hc & Hi).
      rewrite E. exists [], evs. cbn [fst snd]. rewrite extend_nil.
      rewrite Hw, Hc, Hi. repeat split; reflexivity.
    + assert (e1 = e2) as ->.
      { unfold fetched in Hf. rewrite H1, H2 in Hf. cbn in Hf. congruence. }
      exists [], []. cbn [fst snd]. rewrite !extend_nil.
      repeat split; reflexivity.
Qed.

(** C5. Two passes with the same selection and the same fetch results for
    the selected labels end alike and show the same figures, hence figures
    of the same structure (trace count, trace names in order, points per
    trace), the same warnings and the same prompts; whatever state either
    pass starts from, and whatever the two worlds do for other labels. *)
Theorem C5_passes_are_deterministic (w1 w2 : World) (s1 s2 : state) :
  selected w1 = selected w2 ->
  (forall name, In name (selected w1) -> fetched w1 name = fetched w2 name) ->
  result w1 s1 = result w2 s2 /\
  charts (output w1 s1) = charts (output w2 s2) /\
  map structure (charts (output w1 s1)) =
    map structure (charts (output w2 s2)) /\
  warnings (output w1 s1) = warnings (output w2 s2) /\
  infos (output w1 s1) = infos (output w2 s2).
Proof.
  intros Hsel Hsame.
  destruct (pipeline_deterministic w1 w2 (selected w1) (started s1)
              (started s2) eq_refl eq_refl Hsame)
    as (evs1 & evs2 & E1 & E2 & Hc & Hw & Hi).
  rewrite <- page_start in E1. rewrite Hsel, <- page_start in E1, E2.
  assert (O1 : output w1 s1 = preamble ++ evs1).
  { apply output_of. rewrite E1. unfold extend, started; cbn [log snd].
    now rewrite <- app_assoc. }
  assert (O2 : output w2 s2 = preamble ++ evs2).
  { apply output_of. rewrite E2. unfold extend, started; cbn [log snd].
    now rewrite <- app_assoc. }
  unfold result. rewrite O1, O2, E1.
  rewrite !charts_app, !warnings_app, !infos_app, Hc, Hw, Hi.
  repeat split; reflexivity.
Qed.

Lemma C5_witness :
  result Sample.mixed Sample.fresh = result Sample.elsewhere Sample.stale /\
  charts (output Sample.mixed Sample.fresh) =
    charts (output Sample.elsewhere Sample.stale) /\
  map structure (charts (output Sample.mixed Sample.fresh)) =
    map structure (charts (output Sample.elsewhere Sample.stale)) /\
  warnings (output Sample.mixed Sample.fresh) =
    warnings (output Sample.elsewhere Sample.stale) /\
  infos (output Sample.mixed Sample.fresh) =
    infos (output Sample.elsewhere Sample.stale).
Proof.
  apply (C5_passes_are_deterministic Sample.mixed Sample.elsewhere
           Sample.fresh Sample.stale).
  - reflexivity.
  - intros name [<- | [<- | [<- | []]]]; vm_compute; reflexivity.
Defined.

(** * The examples of the specification *)

(** The default selection over a provider with 756 daily points for each
    ticker: two traces, Apple then Microsoft, of 756 points each, and no
    warning. *)
Example default_selection_756_points :
  result (Sample.world 756 None) Sample.fresh = Ok tt /\
  map structure (charts (output (Sample.world 756 None) Sample.fresh)) =
    [[("Apple (AAPL)", 756%nat); ("Microsoft (MSFT)", 756%nat)]] /\
  warnings (output (Sample.world 756 None) Sample.fresh) = [].
Proof. vm_compute. repeat split; reflexivity. Qed.

(** TSMC alone, for which the provider has nothing: a figure without
    traces and one warning, which names TSMC. *)
Example tsmc_alone_has_no_data :
  result (Sample.world 756 (Some ["TSMC (TSM)"])) Sample.fresh = Ok tt /\
  map structure
      (charts (output (Sample.world 756 (Some ["TSMC (TSM)"])) Sample.fresh)) =
    [[]] /\
  warnings (output (Sample.world 756 (Some ["TSMC (TSM)"])) Sample.fresh) =
    [warning_text "TSMC (TSM)"].
Proof. vm_compute. repeat split; reflexivity. Qed.

(** Before 0004-01-01 the start of the range is no date, and the
    subtraction of line 29 raises. *)
Example start_date_before_year_4 :
  start_date {| toordinal := 1095; hour := 23; minute := 59; second := 59;
                microsecond := 999999 |} =
    Raise (OverflowError "result out of range").
Proof. reflexivity. Qed.

(** * Further properties of the script *)

(** ** Passes that fail *)

Lemma first_failure_none (w : World) (names : list string) :
  first_failure w names = None ->
  forall n, In n names -> exists df, fetched w n = Ok df.
Proof.
  induction names as [| name names IH]; cbn [first_failure]; intros H n Hin.
  - contradiction.
  - destruct (fetched w name) as [df | e] eqn:Hf; [| discriminate].
    destruct Hin as [<- | Hin]; eauto.
Qed.

Lemma first_failure_some (w : World) (names : list string) (e : exception) :
  first_failure w names = Some e ->
  exists before name after,
    names = before ++ name :: after /\
    (forall n, In n before -> exists df, fetched w n = Ok df) /\
    fetched w name = Raise e.
Proof.
  induction names as [| name names IH]; cbn [first_failure]; intros H.
  - discriminate.
  - destruct (fetched w name) as [df | e'] eqn:Hf.
    + destruct (IH H) as (before & name' & after & -> & Hb & Hr).
      exists (name :: before), name', after. split; [reflexivity |].
      split; [| exact Hr]. intros n [<- | Hin]; eauto.
    + exists [], name, names. split; [reflexivity |].
      split; [intros n [] | congruence].
Qed.

Lemma fetched_in_catalog (w : World) (name : string) (df : pd.DataFrame) :
  fetched w name = Ok df ->
  exists start ticker,
    start_date (clock w) = Ok start /\
    get top10_companies name = Some ticker /\
    provider w ticker start (clock w) = Ok df.
Proof.
  unfold fetched, getitem, end_date.
  destruct (start_date (clock w)) as [start | e]; [| discriminate].
  destruct (get top10_companies name) as [ticker | ]; [| discriminate].
  cbn [outcome_bind]. eauto.
Qed.

Lemma page_empty (w : World) (s : state) :
  selected w = [] ->
  result w s = Ok tt /\ output w s = preamble ++ [Info info_text].
Proof.
  intros Hsel.
  assert (E : page w s = (Ok tt, extend (started s) [Info info_text])).
  { rewrite page_start, Hsel. apply pipeline_empty. }
  split; [unfold result; now rewrite E |].
  apply output_of. rewrite E. unfold extend, started; cbn [log snd].
  now rewrite <- app_assoc.
Qed.

(** A pass whose fetch for a label fails in any way (no date range, no such
    label, or the provider raises) after the fetches before it returned. *)
Lemma page_fails (w : World) (s : state) (before after : list string)
    (name : string) (e : exception) :
  selected w = before ++ name :: after ->
  (forall n, In n before -> exists df, fetched w n = Ok df) ->
  fetched w name = Raise e ->
  result w s = Raise e /\
  charts (output w s) = [] /\
  infos (output w s) = [] /\
  warnings (output w s) = map warning_text (filter (no_series w) before) /\
  requests (output w s) =
    match start_date (clock w) with
    | Ok start =>
        requests_for w start
          (before ++ match get top10_companies name with
                     | Some _ => [name]
                     | None => []
                     end)
    | Raise _ => []
    end.
Proof.
  intros Hsel Hbefore Hf.
  assert (Hne : selected w <> [])
    by (rewrite Hsel; destruct before; discriminate).
  destruct (start_date (clock w)) as [start | e0] eqn:Hstart.
  - assert (E : page w s =
                (Raise e,
                 extend (started s)
                   (flat_map (turn_events w start) before
                    ++ match getitem top10_companies name with
                       | Ok t => [Download t start (clock w)]
                       | Raise _ => []
                       end))).
    { rewrite page_start, pipeline_nonempty, Hstart by exact Hne.
      rewrite Hsel, for_each_app. unfold bind at 1.
      rewrite (loop_returns w start Hstart before Hbefore) by reflexivity.
      cbn [for_each]. unfold bind at 1.
      rewrite (loop_body_raises w start Hstart name _ _ e)
        by (reflexivity || exact Hf).
      rewrite extend_extend. reflexivity. }
    assert (Ho : output w s =
                 preamble ++ flat_map (turn_events w start) before
                 ++ match getitem top10_companies name with
                    | Ok t => [Download t start (clock w)]
                    | Raise _ => []
                    end).
    { apply output_of. rewrite E. unfold extend, started; cbn [log snd].
      now rewrite <- app_assoc. }
    destruct (turns_quiet w start before) as [Hi Hc].
    split; [unfold result; now rewrite E |].
    rewrite Ho, !charts_app, !infos_app, !warnings_app, !requests_app, Hc, Hi.
    rewrite warnings_turns, requests_turns.
    unfold requests_for, getitem. rewrite map_app.
    destruct (get top10_companies name) as [t | ] eqn:Hget;
      cbn [preamble charts infos warnings requests app map];
      rewrite ?app_nil_r; repeat split; try reflexivity.
    assert (Ht : ticker_of name = t)
      by (unfold ticker_of; now rewrite Hget).
    rewrite Ht. reflexivity.
  - destruct before as [| n before].
    + assert (e = e0) as ->
        by (unfold fetched in Hf; rewrite Hstart in Hf; cbn in Hf; congruence).
      assert (E : page w s = (Raise e0, started s))
        by (rewrite page_start, pipeline_nonempty, Hstart by exact Hne;
            reflexivity).
      assert (Ho : output w s = preamble ++ []).
      { apply output_of. rewrite E, app_nil_r. reflexivity. }
      split; [unfold result; now rewrite E |].
      rewrite Ho. repeat split; reflexivity.
    + destruct (Hbefore n (or_introl eq_refl)) as [df Hdf].
      unfold fetched in Hdf. rewrite Hstart in Hdf. discriminate.
Qed.

(** The requests of any pass are those for the labels of a beginning of the
    selection, all of them catalog labels. *)
Lemma requests_prefix (w : World) (s : state) :
  exists k start,
    requests (output w s) = requests_for w start (firstn k (selected w)) /\
    (forall n, In n (firstn k (selected w)) ->
               exists t, get top10_companies n = Some t) /\
    (k = 0%nat \/ start_date (clock w) = Ok start).
Proof.
  destruct (first_failure w (selected w)) as [e | ] eqn:Hff.
  - destruct (first_failure_some _ _ _ Hff)
      as (before & name & after & Hsel & Hb & Hr).
    destruct (page_fails w s before after name e Hsel Hb Hr)
      as (_ & _ & _ & _ & Hq).
    assert (Hcat : forall n, In n before ->
                             exists t, get top10_companies n = Some t).
    { intros n Hn. destruct (Hb n Hn) as [df Hdf].
      destruct (fetched_in_catalog _ _ _ Hdf) as (_ & t & _ & Ht & _). eauto. }
    destruct (start_date (clock w)) as [start | e0] eqn:Hstart.
    + destruct (get top10_companies name) as [t | ] eqn:Hget.
      * exists (List.length before + 1)%nat, start. rewrite Hq, Hsel.
        rewrite firstn_app_2. cbn [firstn]. split; [reflexivity |].
        split; [| now right].
        intros n Hn. apply in_app_or in Hn.
        destruct Hn as [Hn | [<- | []]]; eauto.
      * exists (List.length before + 0)%nat, start. rewrite Hq, Hsel.
        rewrite firstn_app_2. cbn [firstn]. split; [reflexivity |].
        split; [| now right].
        intros n Hn. rewrite app_nil_r in Hn. eauto.
    + exists 0%nat, (clock w). rewrite Hq. cbn.
      split; [reflexivity |]. split; [contradiction | now left].
  - pose proof (first_failure_none _ _ Hff) as Hall.
    destruct (selected w) as [| name sel] eqn:Hsel.
    + destruct (page_empty w s Hsel) as [_ Ho].
      exists 0%nat, (clock w). rewrite Ho. cbn.
      split; [reflexivity |]. split; [contradiction | now left].
    + assert (Hne : selected w <> []) by (rewrite Hsel; discriminate).
      rewrite <- Hsel in *.
      destruct (pass_summary w s Hne Hall) as (_ & _ & _ & _ & start & Hs & Hq).
      exists (List.length (selected w)), start. rewrite firstn_all.
      split; [exact Hq |]. split; [| now right].
      intros n Hn. destruct (Hall n Hn) as [df Hdf].
      destruct (fetched_in_catalog _ _ _ Hdf) as (_ & t & _ & Ht & _). eauto.
Qed.

(** The three ways a pass can go. *)
Lemma pass_cases (w : World) :
  selected w = [] \/
  (selected w <> [] /\
   first_failure w (selected w) = None /\
   forall n, In n (selected w) -> exists df, fetched w n = Ok df) \/
  (exists e before name after,
     first_failure w (selected w) = Some e /\
     selected w = before ++ name :: after /\
     (forall n, In n before -> exists df, fetched w n = Ok df) /\
     fetched w name = Raise e).
Proof.
  destruct (first_failure w (selected w)) as [e | ] eqn:Hff.
  - right. right.
    destruct (first_failure_some _ _ _ Hff)
      as (before & name & after & Hsel & Hb & Hr).
    exists e, before, name, after. auto.
  - destruct (selected w) as [| name sel] eqn:Hsel; [now left |].
    right. left. split; [discriminate |]. split; [reflexivity |].
    rewrite <- Hsel in Hff. intros n Hn. rewrite <- Hsel in Hn.
    exact (first_failure_none _ _ Hff n Hn).
Qed.

(** X1. A pass ends with the exception of the first selected label, in
    selection order, whose fetch fails (no date range, no such label in the
    catalog, or the provider raises), and ends normally when there is none;
    in particular when nothing is selected. *)
Theorem X1_result_is_first_failure (w : World) (s : state) :
  result w s =
    match first_failure w (selected w) with
    | Some e => Raise e
    | None => Ok tt
    end.
Proof.
  destruct (pass_cases w) as [Hnil | [(Hne & Hff & Hall) | H]].
  - destruct (page_empty w s Hnil) as [Hr _]. rewrite Hr, Hnil. reflexivity.
  - destruct (pass_summary w s Hne Hall) as (Hr & _). now rewrite Hr, Hff.
  - destruct H as (e & before & name & after & Hff & Hsel & Hb & Hr).
    destruct (page_fails w s before after name e Hsel Hb Hr) as (Hres & _).
    now rewrite Hres, Hff.
Qed.

(** X2. A pass shows a chart exactly when something is selected and no
    fetch fails, and then exactly one: the figure with the traces of the
    selected labels that have rows.  In every other pass no chart is shown
    at all, not even one with the traces fetched so far. *)
Theorem X2_chart_only_without_failure (w : World) (s : state) :
  charts (output w s) =
    match selected w, first_failure w (selected w) with
    | _ :: _, None => [figure w]
    | _, _ => []
    end.
Proof.
  destruct (pass_cases w) as [Hnil | [(Hne & Hff & Hall) | H]].
  - destruct (page_empty w s Hnil) as [_ Ho]. rewrite Ho, Hnil. reflexivity.
  - destruct (pass_summary w s Hne Hall) as (_ & Hc & _). rewrite Hc, Hff.
    destruct (selected w); [congruence | reflexivity].
  - destruct H as (e & before & name & after & Hff & Hsel & Hb & Hr).
    destruct (page_fails w s before after name e Hsel Hb Hr) as (_ & Hc & _).
    rewrite Hc, Hff. destruct (selected w); reflexivity.
Qed.

(** X3. Whatever happens in a pass, its requests to the provider are for
    the labels of a beginning of the selection, one each and in selection
    order; each of these labels is in the catalog and is requested by its
    ticker; no other ticker is ever requested. *)
Theorem X3_requests_follow_the_selection (w : World) (s : state) :
  exists k start,
    requests (output w s) =
      map (fun name => (ticker_of name, start, clock w))
          (firstn k (selected w)) /\
    forall name, In name (firstn k (selected w)) ->
                 get top10_companies name = Some (ticker_of name).
Proof.
  destruct (requests_prefix w s) as (k & start & Hq & Hcat & _).
  exists k, start. split; [exact Hq |].
  intros name Hin. destruct (Hcat name Hin) as [t Ht].
  unfold ticker_of. now rewrite Ht.
Qed.

(** X4. A selected label that the catalog does not have makes the pass end
    with [KeyError] for that label, once the fetches before it returned:
    the provider is never asked for it, and no chart is shown. *)
Theorem X4_unlisted_label_raises_KeyError (w : World) (s : state)
    (before after : list string) (name : string) (start : datetime) :
  selected w = before ++ name :: after ->
  (forall n, In n before -> exists df, fetched w n = Ok df) ->
  start_date (clock w) = Ok start ->
  get top10_companies name = None ->
  result w s = Raise (KeyError name) /\
  requests (output w s) = requests_for w start before /\
  charts (output w s) = [].
Proof.
  intros Hsel Hb Hstart Hget.
  assert (Hf : fetched w name = Raise (KeyError name)).
  { unfold fetched, getitem. rewrite Hstart, Hget. reflexivity. }
  destruct (page_fails w s before after name _ Hsel Hb Hf)
    as (Hr & Hc & _ & _ & Hq).
  rewrite Hstart, Hget, app_nil_r in Hq. auto.
Qed.

Lemma X4_witness :
  result Cases.unlisted Sample.fresh = Raise (KeyError "Nokia (NOK)") /\
  requests (output Cases.unlisted Sample.fresh) =
    requests_for Cases.unlisted
      {| toordinal := 738322; hour := 10; minute := 30; second := 0;
         microsecond := 0 |}
      ["Apple (AAPL)"] /\
  charts (output Cases.unlisted Sample.fresh) = [].
Proof.
  apply (X4_unlisted_label_raises_KeyError Cases.unlisted Sample.fresh
           ["Apple (AAPL)"] ["Visa (V)"] "Nokia (NOK)").
  - reflexivity.
  - intros n [<- | []]. eexists. vm_compute. reflexivity.
  - vm_compute. reflexivity.
  - vm_compute. reflexivity.
Defined.

(** ** The date range at its bound *)




(** ** Dicts *)

(** X10. Subscripting a dict with a key gives a value the dict binds the
    key to, and raises [KeyError] carrying that key exactly when the key is
    not among the dict's keys. *)
Theorem X10_getitem_or_KeyError (d : list (string * string)) (key : string) :
  match getitem d key with
  | Ok v => In (key, v) d /\ In key (keys d)
  | Raise e => e = KeyError key /\ ~ In key (keys d)
  end.
Proof.
  unfold getitem, keys. induction d as [| [k v] d IH]; cbn [get map fst In].
  - split; [reflexivity | tauto].
  - destruct (String.eqb_spec k key) as [-> | Hk].
    + split; left; reflexivity.
    + destruct (get d key) as [v' | ].
      * destruct IH as [H1 H2]. split; right; assumption.
      * destruct IH as [H1 H2]. split; [exact H1 |].
        intros [E | Hin]; [congruence | tauto].
Qed.

Lemma get_In (d : list (string * string)) (key v : string) :
  get d key = Some v -> In (key, v) d.
Proof.
  induction d as [| [k v'] d IH]; cbn [get]; [discriminate |].
  destruct (String.eqb_spec k key) as [-> | Hk].
  - intros E. left. congruence.
  - intros E. right. auto.
Qed.

Lemma get_keys (d : list (string * string)) (key : string) :
  In key (keys d) -> exists v, get d key = Some v.
Proof.
  unfold keys. induction d as [| [k v] d IH]; cbn [get map fst In].
  - contradiction.
  - destruct (String.eqb_spec k key) as [-> | Hk]; [eauto |].
    intros [E | Hin]; [congruence | auto].
Qed.

(** In a dict whose values are pairwise different, keys with the same value
    are the same key. *)
Lemma get_injective (d : list (string * string)) (a b v : string) :
  NoDup (map snd d) -> get d a = Some v -> get d b = Some v -> a = b.
Proof.
  induction d as [| [k v'] d IH]; cbn [get map snd]; [discriminate |].
  intros Hnd Ha Hb. inversion Hnd as [| ? ? Hnotin Hnd']; subst.
  destruct (String.eqb_spec k a) as [Eka | Hka];
    destruct (String.eqb_spec k b) as [Ekb | Hkb].
  - congruence.
  - exfalso. apply Hnotin. injection Ha as ->.
    apply get_In in Hb. apply (in_map snd) in Hb. exact Hb.
  - exfalso. apply Hnotin. injection Hb as ->.
    apply get_In in Ha. apply (in_map snd) in Ha. exact Ha.
  - eauto.
Qed.

Lemma tickers_NoDup : NoDup (map snd top10_companies).
Proof. repeat constructor; cbn; intuition discriminate. Qed.

Lemma NoDup_firstn {A} (k : nat) (l : list A) : NoDup l -> NoDup (firstn k l).
Proof.
  intros H. rewrite <- (firstn_skipn k l) in H.
  exact (NoDup_app_remove_r _ _ H).
Qed.

Lemma NoDup_map_in {A B} (f : A -> B) (l : list A) :
  (forall a b, In a l -> In b l -> f a = f b -> a = b) ->
  NoDup l -> NoDup (map f l).
Proof.
  intros Hinj. induction 1 as [| a l Hnotin Hnd IH]; cbn [map]; constructor.
  - intros Hin. apply in_map_iff in Hin. destruct Hin as (b & Hfb & Hb).
    assert (b = a) by (apply Hinj; [now right | now left | exact Hfb]).
    subst b. contradiction.
  - apply IH. intros x y Hx Hy. apply Hinj; now right.
Qed.

(** X9. In a pass over a selection without duplicates no ticker is
    requested twice, whatever the fetches do: different labels of the
    catalog have different tickers. *)
Theorem X9_no_ticker_requested_twice (w : World) (s : state) :
  NoDup (selected w) ->
  NoDup (map (fun r => fst (fst r)) (requests (output w s))).
Proof.
  intros Hnd. destruct (requests_prefix w s) as (k & start & Hq & Hcat & _).
  rewrite Hq. unfold requests_for. rewrite map_map. cbn [fst].
  apply NoDup_map_in; [| now apply NoDup_firstn].
  intros a b Ha Hb E.
  destruct (Hcat a Ha) as [ta Hta]. destruct (Hcat b Hb) as [tb Htb].
  unfold ticker_of in E. rewrite Hta, Htb in E. subst tb.
  exact (get_injective _ _ _ _ tickers_NoDup Hta Htb).
Qed.

Lemma X9_witness :
  NoDup (map (fun r => fst (fst r))
             (requests (output Sample.failing Sample.stale))).
Proof.
  apply (X9_no_ticker_requested_twice Sample.failing Sample.stale).
  repeat constructor; cbn; intuition discriminate.
Defined.

(** ** Traces and warnings *)

(** With all fetches returning, every label has rows or has none. *)
Lemma series_split (w : World) (names : list string) :
  (forall n, In n names -> exists df, fetched w n = Ok df) ->
  (List.length (filter (has_series w) names)
   + List.length (filter (no_series w) names))%nat = List.length names.
Proof.
  induction names as [| name names IH]; intros Hall; [reflexivity |].
  assert (IH' := IH (fun n Hn => Hall n (or_intror Hn))).
  destruct (Hall name (or_introl eq_refl)) as [df Hf].
  cbn [filter]. unfold has_series at 1, no_series at 1. rewrite Hf.
  destruct (pd.empty df); cbn [negb List.length]; lia.
Qed.

Lemma count_occ_filter (f : string -> bool) (l : list string) (a : string) :
  count_occ string_dec (filter f l) a =
    if f a then count_occ string_dec l a else 0%nat.
Proof.
  induction l as [| b l IH]; cbn [filter]; [now destruct (f a) |].
  destruct (string_dec b a) as [-> | Hba].
  - destruct (f a) eqn:Hfa.
    + rewrite !count_occ_cons_eq, IH by reflexivity. reflexivity.
    + exact IH.
  - rewrite (count_occ_cons_neq _ l Hba).
    destruct (f b); [rewrite count_occ_cons_neq by exact Hba |]; exact IH.
Qed.

(** X6. Every trace of every figure a pass shows is a line trace named by
    a selected label, it has at least one point and as many x-values as
    y-values, and these are the index and the closing prices of the table
    fetched for its label: a table without rows is never plotted. *)
Theorem X6_traces_are_well_formed (w : World) (s : state)
    (fig : go.Figure) (t : go.Scatter) :
  In fig (charts (output w s)) ->
  In t (go.data fig) ->
  go.mode t = "lines" /\
  In (go.name t) (selected w) /\
  go.x t <> [] /\
  List.length (go.x t) = List.length (go.y t) /\
  exists df,
    fetched w (go.name t) = Ok df /\
    go.x t = pd.index df /\ go.y t = pd.Close df.
Proof.
  intros Hfig Ht.
  destruct (pass_cases w) as [Hnil | [(Hne & Hff & Hall) | H]].
  - destruct (page_empty w s Hnil) as [_ Ho]. rewrite Ho in Hfig.
    contradiction.
  - destruct (pass_summary w s Hne Hall) as (_ & Hc & _).
    rewrite Hc in Hfig. destruct Hfig as [<- | []].
    unfold figure in Ht; cbn [go.data] in Ht.
    apply in_map_iff in Ht. destruct Ht as (name & <- & Hin).
    apply filter_In in Hin. destruct Hin as [Hin Hhas].
    unfold trace_of, series; cbn [go.mode go.name go.x go.y].
    unfold has_series in Hhas.
    destruct (fetched w name) as [df | e]; [| discriminate].
    split; [reflexivity |]. split; [exact Hin |].
    split; [destruct df; [discriminate | discriminate] |].
    split; [unfold pd.index, pd.Close; now rewrite !length_map |].
    exists df. auto.
  - destruct H as (e & before & name & after & _ & Hsel & Hb & Hr).
    destruct (page_fails w s before after name e Hsel Hb Hr) as (_ & Hc & _).
    rewrite Hc in Hfig. contradiction.
Qed.

Lemma X6_witness :
  go.mode (trace_of Sample.mixed "Visa (V)") = "lines" /\
  In (go.name (trace_of Sample.mixed "Visa (V)")) (selected Sample.mixed) /\
  go.x (trace_of Sample.mixed "Visa (V)") <> [] /\
  List.length (go.x (trace_of Sample.mixed "Visa (V)")) =
    List.length (go.y (trace_of Sample.mixed "Visa (V)")) /\
  exists df,
    fetched Sample.mixed (go.name (trace_of Sample.mixed "Visa (V)")) = Ok df /\
    go.x (trace_of Sample.mixed "Visa (V)") = pd.index df /\
    go.y (trace_of Sample.mixed "Visa (V)") = pd.Close df.
Proof.
  apply (X6_traces_are_well_formed Sample.mixed Sample.fresh
           (figure Sample.mixed) (trace_of Sample.mixed "Visa (V)")).
  - vm_compute. left. reflexivity.
  - vm_compute. right. left. reflexivity.
Defined.

(** X7. In a pass whose fetches return, every selected label gets either
    its trace or its warning: the warnings are those of the labels without
    rows, in selection order, and traces and warnings together are as many
    as the selected labels, duplicates included. *)
Theorem X7_trace_or_warning (w : World) (s : state) :
  selected w <> [] ->
  (forall name, In name (selected w) -> exists df, fetched w name = Ok df) ->
  exists fig,
    charts (output w s) = [fig] /\
    warnings (output w s) =
      map warning_text (filter (no_series w) (selected w)) /\
    (List.length (go.data fig) + List.length (warnings (output w s)))%nat =
      List.length (selected w).
Proof.
  intros Hne Hall.
  destruct (pass_summary w s Hne Hall) as (_ & Hc & Hw & _).
  exists (figure w). split; [exact Hc |]. split; [exact Hw |].
  rewrite Hw. unfold figure; cbn [go.data]. rewrite !length_map.
  now apply series_split.
Qed.

Lemma X7_witness :
  exists fig,
    charts (output Cases.twice Sample.fresh) = [fig] /\
    warnings (output Cases.twice Sample.fresh) =
      map warning_text (filter (no_series Cases.twice) (selected Cases.twice)) /\
    (List.length (go.data fig)
     + List.length (warnings (output Cases.twice Sample.fresh)))%nat =
      List.length (selected Cases.twice).
Proof.
  apply (X7_trace_or_warning Cases.twice Sample.fresh).
  - discriminate.
  - apply fetches_return. vm_compute. reflexivity.
Defined.

(** X13. The loop does not look for duplicates: in a pass whose fetches
    return, a label with rows has as many traces as it occurs in the
    selection, and a label without rows as many warnings. *)
Theorem X13_duplicates_are_plotted_again (w : World) (s : state)
    (name : string) :
  selected w <> [] ->
  (forall n, In n (selected w) -> exists df, fetched w n = Ok df) ->
  exists fig,
    charts (output w s) = [fig] /\
    traces_named name fig =
      (if has_series w name
       then count_occ string_dec (selected w) name else 0%nat) /\
    count_occ string_dec (warnings (output w s)) (warning_text name) =
      (if no_series w name
       then count_occ string_dec (selected w) name else 0%nat).
Proof.
  intros Hne Hall.
  destruct (pass_summary w s Hne Hall) as (_ & Hc & Hw & _).
  exists (figure w). split; [exact Hc |]. split.
  - unfold traces_named. rewrite figure_names. apply count_occ_filter.
  - rewrite Hw.
    rewrite <- (count_occ_map warning_text string_dec string_dec
                  warning_text_injective).
    apply count_occ_filter.
Qed.

Lemma X13_witness :
  exists fig,
    charts (output Cases.twice Sample.fresh) = [fig] /\
    traces_named "Visa (V)" fig =
      (if has_series Cases.twice "Visa (V)"
       then count_occ string_dec (selected Cases.twice) "Visa (V)"
       else 0%nat) /\
    count_occ string_dec (warnings (output Cases.twice Sample.fresh))
      (warning_text "Visa (V)") =
      (if no_series Cases.twice "Visa (V)"
       then count_occ string_dec (selected Cases.twice) "Visa (V)"
       else 0%nat).
Proof.
  apply (X13_duplicates_are_plotted_again Cases.twice Sample.fresh "Visa (V)").
  - discriminate.
  - apply fetches_return. vm_compute. reflexivity.
Defined.

Lemma no_rows_no_traces (w : World) (names : list string) :
  (forall name, In name names -> fetched w name = Ok []) ->
  filter (has_series w) names = [].
Proof.
  induction names as [| n l IH]; intros Hnone; [reflexivity |].
  cbn [filter]. unfold has_series at 1.
  rewrite (Hnone n (or_introl eq_refl)). cbn [pd.empty negb].
  apply IH. intros name Hin. apply Hnone. now right.
Qed.

(** X11. When the provider has no rows for any selected label, the pass
    still ends normally and shows a chart: a figure without traces, laid
    out as always, under one warning per selected label, in order. *)
Theorem X11_no_rows_at_all (w : World) (s : state) :
  selected w <> [] ->
  (forall name, In name (selected w) -> fetched w name = Ok []) ->
  result w s = Ok tt /\
  charts (output w s) = [{| go.data := []; go.layout := page_layout |}] /\
  warnings (output w s) = map warning_text (selected w).
Proof.
  intros Hne Hnone.
  assert (Hall : forall name, In name (selected w) ->
                              exists df, fetched w name = Ok df) by eauto.
  destruct (pass_summary w s Hne Hall) as (Hr & Hc & Hw & _).
  assert (Hno : filter (no_series w) (selected w) = selected w).
  { apply forallb_filter_id. apply forallb_forall. intros n Hn.
    unfold no_series. now rewrite (Hnone n Hn). }
  assert (Hhas : filter (has_series w) (selected w) = [])
    by (apply no_rows_no_traces; exact Hnone).
  split; [exact Hr |]. split.
  - rewrite Hc. unfold figure. now rewrite Hhas.
  - now rewrite Hw, Hno.
Qed.

Lemma X11_witness :
  result Cases.no_data Sample.fresh = Ok tt /\
  charts (output Cases.no_data Sample.fresh) =
    [{| go.data := []; go.layout := page_layout |}] /\
  warnings (output Cases.no_data Sample.fresh) =
    map warning_text (selected Cases.no_data).
Proof.
  apply (X11_no_rows_at_all Cases.no_data Sample.fresh).
  - discriminate.
  - intros name [<- | []]. vm_compute. reflexivity.
Defined.

(** X8. A pass ends normally, with one chart and one request per selected
    label, whenever something is selected, every selected label is one of
    the catalog, the clock reads a date from 0004-01-01 on, and the provider
    answers for the tickers of the selected labels. *)
Theorem X8_when_a_pass_succeeds (w : World) (s : state) :
  selected w <> [] ->
  (forall name, In name (selected w) -> In name (keys top10_companies)) ->
  valid (clock w) -> 1095 < toordinal (clock w) ->
  (forall name start,
     In name (selected w) ->
     exists df, provider w (ticker_of name) start (clock w) = Ok df) ->
  result w s = Ok tt /\
  (exists fig, charts (output w s) = [fig]) /\
  List.length (requests (output w s)) = List.length (selected w).
Proof.
  intros Hne Hcat Hv Hlo Hprov.
  assert (Hall : forall name, In name (selected w) ->
                              exists df, fetched w name = Ok df).
  { intros name Hin. destruct (get_keys _ _ (Hcat name Hin)) as [t Ht].
    unfold fetched, getitem, end_date.
    rewrite (start_date_ok _ Hv Hlo), Ht. cbn [outcome_bind].
    destruct (Hprov name
                {| toordinal := toordinal (clock w) - 1095;
                   hour := hour (clock w); minute := minute (clock w);
                   second := second (clock w);
                   microsecond := microsecond (clock w) |} Hin) as [df Hdf].
    unfold ticker_of in Hdf. rewrite Ht in Hdf. eauto. }
  destruct (pass_summary w s Hne Hall) as (Hr & Hc & _ & _ & start & _ & Hq).
  split; [exact Hr |]. split; [eauto |]. now rewrite Hq, length_map.
Qed.

Lemma X8_witness :
  result Sample.untouched Sample.stale = Ok tt /\
  (exists fig, charts (output Sample.untouched Sample.stale) = [fig]) /\
  List.length (requests (output Sample.untouched Sample.stale)) =
    List.length (selected Sample.untouched).
Proof.
  apply (X8_when_a_pass_succeeds Sample.untouched Sample.stale).
  - discriminate.
  - intros name [<- | [<- | []]]; cbn; tauto.
  - unfold valid, MAXORDINAL. cbn. lia.
  - cbn. lia.
  - intros name start [<- | [<- | []]]; eexists; vm_compute; reflexivity.
Defined.

(** ** Texts and the order of the output *)

Lemma prefix_append (a b : string) : String.prefix a (a ++ b)%string = true.
Proof.
  induction a as [| c a IH]; cbn; [now destruct b |].
  destruct (ascii_dec c c) as [_ | Hc]; [exact IH | congruence].
Qed.

(** X12. A warning begins with the label it is about, and warnings for
    different labels are different texts: a warning tells which company it
    is about. *)
Theorem X12_warning_names_its_label (a b : string) :
  String.prefix a (warning_text a) = true /\
  (warning_text a = warning_text b <-> a = b).
Proof.
  split; [apply prefix_append |]. split.
  - apply warning_text_injective.
  - intros ->. reflexivity.
Qed.

Lemma chart_in (fig : go.Figure) (b : bool) (evs : list event) :
  In (PlotlyChart fig b) evs -> In fig (charts evs).
Proof.
  induction evs as [| e evs IH]; cbn [In]; [contradiction |].
  intros [-> | Hin]; [now left |].
  destruct e; cbn [charts]; auto. right. auto.
Qed.

(** X14. A chart is shown at the full width of its container and is the
    last thing a pass does: every request and every warning of the pass
    comes before it, and nothing comes after. *)
Theorem X14_chart_comes_last (w : World) (s : state) (fig : go.Figure)
    (b : bool) :
  In (PlotlyChart fig b) (output w s) ->
  b = true /\
  exists evs, output w s = evs ++ [PlotlyChart fig b] /\ charts evs = [].
Proof.
  intros Hin.
  destruct (pass_cases w) as [Hnil | [(Hne & Hff & Hall) | H]].
  - destruct (page_empty w s Hnil) as [_ Ho]. rewrite Ho in Hin.
    apply chart_in in Hin. contradiction.
  - destruct (output_returns w s Hne Hall) as (start & _ & _ & Ho).
    destruct (turns_quiet w start (selected w)) as [_ Hc].
    rewrite Ho in Hin. apply in_app_or in Hin. destruct Hin as [Hin | Hin].
    { apply chart_in in Hin. contradiction. }
    apply in_app_or in Hin. destruct Hin as [Hin | [Hin | []]].
    { apply chart_in in Hin. rewrite Hc in Hin. contradiction. }
    injection Hin as <- <-. split; [reflexivity |].
    exists (preamble ++ flat_map (turn_events w start) (selected w)).
    split; [now rewrite Ho, <- app_assoc |].
    now rewrite charts_app, Hc.
  - destruct H as (e & before & name & after & _ & Hsel & Hb & Hr).
    destruct (page_fails w s before after name e Hsel Hb Hr) as (_ & Hc & _).
    apply chart_in in Hin. rewrite Hc in Hin. contradiction.
Qed.

Lemma X14_witness :
  true = true /\
  exists evs,
    output Sample.mixed Sample.fresh =
      evs ++ [PlotlyChart (figure Sample.mixed) true] /\
    charts evs = [].
Proof.
  apply (X14_chart_comes_last Sample.mixed Sample.fresh
           (figure Sample.mixed) true).
  vm_compute. do 6 right. left. reflexivity.
Defined.
